(** * movie-pass-api: the movie and user services over their collaborators

    A shallow embedding of the movie service and the user service of package
    [service] ([service/user.go] and the complete version of the movie service
    among the sources; an earlier draft whose [Create] only logs is not
    embedded), together with the domain types and conversions of
    [domain/movie.go].

    The services talk to the outside world only through interfaces
    ([domain.MovieRepository], [domain.UserRepository],
    [client.CloudFlareService], [domain.SessionService]) and through a few
    library calls ([uuid.New], [time.Now], [utils.ConvertImageToBytes],
    [secure.HashPassword], [secure.CheckPassword]).  Each such call is a
    command of type [Cmd X], where [X] is the type of its reply; a service
    method is a finite tree of commands ([Prog]); and running a tree against
    an arbitrary implementation of the collaborators ([handler]) yields the
    value returned, the final state of the collaborators and the list of the
    calls made, in order, with their replies.

    Calls to [slog] only write log lines and are left out. *)

From Stdlib Require Import List String Ascii ZArith NArith Lia Bool.
From Stdlib Require Import DecimalString.
Import ListNotations.

Local Open Scope string_scope.
Local Open Scope list_scope.

(** ** Library values *)

(** [uuid.UUID] is sixteen bytes; the number below [2^128] they spell in
    big-endian order stands for it. *)
Definition UUID := N.

Definition uuid_eqb (a b : UUID) : bool := N.eqb a b.

Definition hexDigit (n : N) : ascii :=
  match n with
  | 0 => "0" | 1 => "1" | 2 => "2" | 3 => "3" | 4 => "4" | 5 => "5"
  | 6 => "6" | 7 => "7" | 8 => "8" | 9 => "9" | 10 => "a" | 11 => "b"
  | 12 => "c" | 13 => "d" | 14 => "e" | _ => "f"
  end%N%char.

Fixpoint hexDigits (count : nat) (n : N) (acc : string) : string :=
  match count with
  | O => acc
  | S c => hexDigits c (N.shiftr n 4) (String (hexDigit (N.land n 15)) acc)
  end.

(** [UUID.String]: xxxxxxxx-xxxx-xxxx-xxxx-xxxxxxxxxxxx. *)
Definition uuid_String (u : UUID) : string :=
  let h := hexDigits 32 u "" in
  substring 0 8 h ++ "-" ++ substring 8 4 h ++ "-" ++ substring 12 4 h
    ++ "-" ++ substring 16 4 h ++ "-" ++ substring 20 12 h.

(** [time.Time] as seconds since the Unix epoch; [zeroTime] is [time.Time{}],
    January 1 of year 1. *)
Definition Time := Z.
Definition zeroTime : Time := (-62135596800)%Z.
Definition time_Unix (t : Time) : Z := t.

(** The verb [%d] of [fmt] on an integer. *)
Definition fmt_d (z : Z) : string := NilZero.string_of_int (Z.to_int z).

(** ** Errors *)

(** The sentinel errors of package [domain] that the two services return,
    errors that come out of a collaborator, and [fmt.Errorf] with [%w]. *)
Inductive error : Type :=
| ErrUserNotFoundInContext
| ErrIndicativeRatingNotFound
| ErrMoviesNotFound
| ErrMoviesNotFoundByUserID
| ErrMovieNotBelongUser
| ErrGetUserByEmail
| ErrEmailAlreadyRegister
| ErrHashingPassword
| ErrCreateUser
| ErrUserNotFound
| ErrInvalidPassword
| ErrCreateSession
| ErrExternal (msg : string)
| Errorf (format : string) (wrapped : error).

(** A Go pair [(T, error)]: the services look at the value only when the
    error is nil. *)
Inductive result (T : Type) : Type :=
| Ok (v : T)
| Err (e : error).
Arguments Ok {T} v.
Arguments Err {T} e.

(** ** Domain types *)

Record User := {
  user_ID : UUID;
  user_FirstName : string;
  user_LastName : string;
  user_Email : string;
  user_PasswordHash : string;
  user_BirthDate : Time;
  user_CreatedAt : Time;
  user_UpdatedAt : Time
}.

Definition zeroUser : User :=
  {| user_ID := 0%N; user_FirstName := ""; user_LastName := "";
     user_Email := ""; user_PasswordHash := ""; user_BirthDate := zeroTime;
     user_CreatedAt := zeroTime; user_UpdatedAt := zeroTime |}.

Record UserPayload := {
  up_FirstName : string;
  up_LastName : string;
  up_Email : string;
  up_ConfirmEmail : string;
  up_Password : string;
  up_ConfirmPassword : string;
  up_BirthDate : Time
}.

Record SignInPayload := {
  sp_Email : string;
  sp_Password : string
}.

Record SignInResponse := { Token : string }.

Record Session := { session_UserID : UUID }.

Record IndicativeRating := {
  ir_ID : UUID;
  ir_Description : string;
  ir_ImageURL : string;
  ir_CreatedAt : Time;
  ir_UpdatedAt : Time
}.

Definition zeroIndicativeRating : IndicativeRating :=
  {| ir_ID := 0%N; ir_Description := ""; ir_ImageURL := "";
     ir_CreatedAt := zeroTime; ir_UpdatedAt := zeroTime |}.

(** [MovieImage] as [ProcessUploadQueue] builds it: with the identifier of the
    object in the remote store. *)
Record MovieImage := {
  mi_ID : UUID;
  mi_MovieID : UUID;
  mi_ImageURL : string;
  mi_CloudFlareID : string;
  mi_CreatedAt : Time;
  mi_UpdatedAt : Time
}.

Record Movie := {
  ID : UUID;
  IndicativeRatingID : UUID;
  UserID : UUID;
  Title : string;
  Duration : Z;
  MovieUser : User;
  MovieIndicativeRating : IndicativeRating;
  CreatedAt : Time;
  UpdatedAt : Time;
  Images : list MovieImage
}.

Record MovieImageUploadTask := {
  ut_MovieID : UUID;
  ut_Image : list Byte.byte;
  ut_UserID : UUID
}.

Record MovieImageDeleteTask := { dt_CloudFlareID : string }.

(** [*multipart.FileHeader]: the part of an uploaded form that names a file. *)
Record FileHeader := {
  fh_Filename : string;
  fh_Size : Z
}.

Record MoviePayload := {
  mp_Images : list FileHeader;
  mp_IndicativeRatingID : UUID;
  mp_Title : string;
  mp_Duration : Z
}.

(** The update payload carries pointers: [None] is the nil pointer. *)
Record MovieUpdatePayload := {
  mu_Title : option string;
  mu_Duration : option Z;
  mu_IndicativeRatingID : option UUID
}.

Record IndicativeRatingResponse := {
  irr_ID : UUID;
  irr_Description : string;
  irr_ImageURL : string
}.

Record MovieImageResponse := {
  mir_ID : UUID;
  mir_ImageURL : string
}.

Record MovieResponse := {
  mr_ID : UUID;
  mr_Title : string;
  mr_Duration : Z;
  mr_IndicativeRating : option IndicativeRatingResponse;
  mr_MovieImages : list MovieImageResponse
}.

(** The [Rows] field of [domain.Pagination] has type [any]. *)
Inductive Rows : Type :=
| RowsNil
| RowsMovies (ms : list (option Movie))
| RowsResponses (rs : list MovieResponse)
| RowsOther.

Record Pagination := {
  pg_Limit : Z;
  pg_Page : Z;
  pg_Sort : string;
  pg_TotalRows : Z;
  pg_TotalPages : Z;
  pg_Rows : Rows
}.

(** What the remote object store answers to an upload. *)
Record UploadResponse := {
  ur_URL : string;
  ur_ID : string
}.

(** The value a [context.Context] holds under [domain.SessionKey]: nothing,
    a value of another type, or a [*domain.Session], which may be nil. *)
Inductive ctxValue : Type :=
| CtxAbsent
| CtxOther
| CtxSession (s : option Session).

Definition Context := ctxValue.

(** The type assertion of [ctx.Value(domain.SessionKey)] to a session
    pointer, in its comma-ok form. *)
Definition assertSession (ctx : Context) : option Session * bool :=
  match ctx with
  | CtxSession p => (p, true)
  | _ => (None, false)
  end.

Definition isNil {T : Type} (p : option T) : bool :=
  match p with None => true | Some _ => false end.

(** ** Conversions of [domain/movie.go] *)

Definition ToIndicativeRatingResponse (i : IndicativeRating)
  : IndicativeRatingResponse :=
  {| irr_ID := ir_ID i;
     irr_Description := ir_Description i;
     irr_ImageURL := ir_ImageURL i |}.

Definition ToMovieImageResponse (m : MovieImage) : MovieImageResponse :=
  {| mir_ID := mi_ID m; mir_ImageURL := mi_ImageURL m |}.

Definition ToMovieResponse (m : Movie) : MovieResponse :=
  let MovieImagesResponse :=
    if (0 <? List.length (Images m))%nat
    then map ToMovieImageResponse (Images m)
    else [] in
  {| mr_ID := ID m;
     mr_Title := Title m;
     mr_Duration := Duration m;
     mr_IndicativeRating :=
       Some (ToIndicativeRatingResponse (MovieIndicativeRating m));
     mr_MovieImages := MovieImagesResponse |}.

(** ** Commands: the calls a service makes to its collaborators *)

Inductive Cmd : Type -> Type :=
(* domain.MovieRepository *)
| GetIndicativeRatingByID (id : UUID) : Cmd (result (option IndicativeRating))
| MovieCreate (movie : Movie) : Cmd (option error)
| AddUploadTaskToQueue (task : MovieImageUploadTask) : Cmd (option error)
| GetALlByUserID (userID : UUID) (pagination : Pagination)
  : Cmd (result (option Pagination))
| GetByID (id : UUID) (preload : bool) : Cmd (result (option Movie))
| MovieUpdate (movie : Movie) : Cmd (option error)
| AddDeleteTaskToQueue (task : MovieImageDeleteTask) : Cmd (option error)
| CreateMovieImage (movieImage : MovieImage) : Cmd (option error)
| DeleteMovieImage (cloudFlareID : string) : Cmd (option error)
(* the pull of the worker; [domain/movie.go] declares it as
   GetNextUploadImageTaskFromQueue *)
| GetNextUploadTaskFromQueue : Cmd (result (option MovieImageUploadTask))
(* client.CloudFlareService *)
| UploadImage (image : list Byte.byte) (filename : string)
  : Cmd (result UploadResponse)
| DeleteImage (id : string) : Cmd (option error)
(* utils, uuid, time *)
| ConvertImageToBytes (image : FileHeader) : Cmd (result (list Byte.byte))
| UuidNew : Cmd UUID
| TimeNow : Cmd Time
(* domain.UserRepository *)
| UserGetByEmail (email : string) : Cmd (result (option User))
| UserCreate (user : User) : Cmd (option error)
(* secure, the payload's ToUser, domain.SessionService *)
| HashPassword (password : string) : Cmd (result string)
| CheckPassword (hash password : string) : Cmd (option error)
| ToUser (payload : UserPayload) (passwordHash : string) : Cmd User
| SessionCreate (user : User) : Cmd (result string).

(** A method body: it returns, it panics, or it makes a call and goes on
    with the reply. *)
Inductive Prog (A : Type) : Type :=
| Ret (a : A)
| Panic (msg : string)
| Vis {X : Type} (c : Cmd X) (k : X -> Prog A).
Arguments Ret {A} a.
Arguments Panic {A} msg.
Arguments Vis {A X} c k.

Fixpoint bind {A B : Type} (p : Prog A) (f : A -> Prog B) : Prog B :=
  match p with
  | Ret a => f a
  | Panic msg => Panic msg
  | Vis c k => Vis c (fun x => bind (k x) f)
  end.

Definition call {X : Type} (c : Cmd X) : Prog X := Vis c Ret.

Notation "x <- p ;; q" := (bind p (fun x => q))
  (at level 61, p at next level, right associativity).
Notation "p ;;; q" := (bind p (fun _ => q))
  (at level 61, right associativity).

(** One call with its reply. *)
Inductive Event : Type :=
| Ev {X : Type} (c : Cmd X) (reply : X).

Inductive outcome (A : Type) : Type :=
| Done (a : A)
| Panicked (msg : string).
Arguments Done {A} a.
Arguments Panicked {A} msg.

(** ** Running a method against an implementation of the collaborators *)

Section Run.
Variable W : Type.

Definition handler : Type := forall X : Type, Cmd X -> W -> X * W.

Variable h : handler.

Fixpoint run {A : Type} (p : Prog A) (w : W)
  : outcome A * W * list Event :=
  match p with
  | Ret a => (Done a, w, [])
  | Panic msg => (Panicked msg, w, [])
  | Vis c k =>
      let '(x, w1) := h _ c w in
      let '(o, w2, tr) := run (k x) w1 in
      (o, w2, Ev c x :: tr)
  end.

Definition returned {A : Type} (r : outcome A * W * list Event)
  : outcome A := fst (fst r).
Definition final {A : Type} (r : outcome A * W * list Event) : W :=
  snd (fst r).
Definition calls {A : Type} (r : outcome A * W * list Event)
  : list Event := snd r.
End Run.

Arguments run {W} h {A} p w.
Arguments returned {W A} r.
Arguments final {W A} r.
Arguments calls {W A} r.

(** ** [domain/movie.go]: [MoviePayload.ToMovie] *)

(** The composite literal calls [uuid.New] for its first field and
    [time.Now] for [CreatedAt]; the fields it leaves out hold zero values. *)
Definition ToMovie (payload : MoviePayload) (userID : UUID) : Prog Movie :=
  id <- call UuidNew ;;
  now <- call TimeNow ;;
  Ret {| ID := id;
         IndicativeRatingID := mp_IndicativeRatingID payload;
         UserID := userID;
         Title := mp_Title payload;
         Duration := mp_Duration payload;
         MovieUser := zeroUser;
         MovieIndicativeRating := zeroIndicativeRating;
         CreatedAt := now;
         UpdatedAt := zeroTime;
         Images := [] |}.

(** Assignments to single fields of a [Movie]. *)
Definition withIndicativeRating (m : Movie) (r : IndicativeRating) : Movie :=
  {| ID := ID m; IndicativeRatingID := IndicativeRatingID m;
     UserID := UserID m; Title := Title m; Duration := Duration m;
     MovieUser := MovieUser m; MovieIndicativeRating := r;
     CreatedAt := CreatedAt m; UpdatedAt := UpdatedAt m;
     Images := Images m |}.

Definition withTitle (m : Movie) (t : string) : Movie :=
  {| ID := ID m; IndicativeRatingID := IndicativeRatingID m;
     UserID := UserID m; Title := t; Duration := Duration m;
     MovieUser := MovieUser m;
     MovieIndicativeRating := MovieIndicativeRating m;
     CreatedAt := CreatedAt m; UpdatedAt := UpdatedAt m;
     Images := Images m |}.

Definition withDuration (m : Movie) (d : Z) : Movie :=
  {| ID := ID m; IndicativeRatingID := IndicativeRatingID m;
     UserID := UserID m; Title := Title m; Duration := d;
     MovieUser := MovieUser m;
     MovieIndicativeRating := MovieIndicativeRating m;
     CreatedAt := CreatedAt m; UpdatedAt := UpdatedAt m;
     Images := Images m |}.

Definition withResponseRating (r : MovieResponse)
  (i : option IndicativeRatingResponse) : MovieResponse :=
  {| mr_ID := mr_ID r; mr_Title := mr_Title r; mr_Duration := mr_Duration r;
     mr_IndicativeRating := i; mr_MovieImages := mr_MovieImages r |}.

Definition withRows (p : Pagination) (rows : Rows) : Pagination :=
  {| pg_Limit := pg_Limit p; pg_Page := pg_Page p; pg_Sort := pg_Sort p;
     pg_TotalRows := pg_TotalRows p; pg_TotalPages := pg_TotalPages p;
     pg_Rows := rows |}.

(** ** The movie service *)

Module MovieService.

(** The task [Create] builds for one image. *)
Definition uploadTask (movieID userID : UUID) (imageBytes : list Byte.byte)
  : MovieImageUploadTask :=
  {| ut_MovieID := movieID; ut_Image := imageBytes; ut_UserID := userID |}.

(** The loop of [Create] over [payload.Images]: a failed conversion is
    logged and the loop goes on; so is a failed push. *)
Fixpoint enqueueUploadTasks (movieID userID : UUID)
  (images : list FileHeader) : Prog unit :=
  match images with
  | [] => Ret tt
  | image :: rest =>
      r <- call (ConvertImageToBytes image) ;;
      match r with
      | Err _ => enqueueUploadTasks movieID userID rest
      | Ok imageBytes =>
          call (AddUploadTaskToQueue (uploadTask movieID userID imageBytes))
          ;;; enqueueUploadTasks movieID userID rest
      end
  end.

Definition Create (ctx : Context) (payload : MoviePayload)
  : Prog (result MovieResponse) :=
  let '(session, ok) := assertSession ctx in
  if negb ok || isNil session then Ret (Err ErrUserNotFoundInContext)
  else
    match session with
    | None => Panic "nil pointer dereference"
    | Some session =>
        r <- call (GetIndicativeRatingByID (mp_IndicativeRatingID payload)) ;;
        match r with
        | Err err =>
            Ret (Err (Errorf "error to get indicative rating by id %w" err))
        | Ok None => Ret (Err ErrIndicativeRatingNotFound)
        | Ok (Some indicativeRating) =>
            movie <- ToMovie payload (session_UserID session) ;;
            e <- call (MovieCreate movie) ;;
            match e with
            | Some err => Ret (Err (Errorf "error to create movie %w" err))
            | None =>
                enqueueUploadTasks (ID movie) (session_UserID session)
                  (mp_Images payload) ;;;
                let indicativeRatingResponse :=
                  ToIndicativeRatingResponse indicativeRating in
                let movieResponse := ToMovieResponse movie in
                Ret (Ok (withResponseRating movieResponse
                           (Some indicativeRatingResponse)))
            end
        end
    end.

(** The loop of [GetAllByUserID] over the rows; a nil row cannot be
    converted. *)
Fixpoint rowsToResponses (ms : list (option Movie))
  : option (list MovieResponse) :=
  match ms with
  | [] => Some []
  | None :: _ => None
  | Some movie :: rest =>
      match rowsToResponses rest with
      | Some rs => Some (ToMovieResponse movie :: rs)
      | None => None
      end
  end.

Definition GetAllByUserID (ctx : Context) (pagination : Pagination)
  : Prog (result Pagination) :=
  let '(session, ok) := assertSession ctx in
  if negb ok || isNil session then Ret (Err ErrUserNotFoundInContext)
  else
    match session with
    | None => Panic "nil pointer dereference"
    | Some session =>
        r <- call (GetALlByUserID (session_UserID session) pagination) ;;
        match r with
        | Err err =>
            Ret (Err (Errorf "error to get all movies by user id. error: %w"
                        err))
        | Ok None => Ret (Err ErrMoviesNotFoundByUserID)
        | Ok (Some moviesPagination) =>
            match pg_Rows moviesPagination with
            | RowsMovies ms =>
                match rowsToResponses ms with
                | Some moviesResponse =>
                    Ret (Ok (withRows moviesPagination
                               (RowsResponses moviesResponse)))
                | None => Panic "nil pointer dereference"
                end
            | _ => Panic "interface conversion"
            end
        end
    end.

(** The tail of [Update], from the assignment of the title on. *)
Definition applyAndStore (payload : MovieUpdatePayload) (movie : Movie)
  : Prog (result MovieResponse) :=
  let movie :=
    match mu_Title payload with
    | Some title => withTitle movie title
    | None => movie
    end in
  let movie :=
    match mu_Duration payload with
    | Some duration => withDuration movie duration
    | None => movie
    end in
  e <- call (MovieUpdate movie) ;;
  match e with
  | Some err => Ret (Err (Errorf "error to update movie: %w" err))
  | None => Ret (Ok (ToMovieResponse movie))
  end.

Definition Update (ctx : Context) (ID' : UUID) (payload : MovieUpdatePayload)
  : Prog (result MovieResponse) :=
  let '(session, ok) := assertSession ctx in
  if negb ok || isNil session then Ret (Err ErrUserNotFoundInContext)
  else
    match session with
    | None => Panic "nil pointer dereference"
    | Some session =>
        r <- call (GetByID ID' true) ;;
        match r with
        | Err err => Ret (Err (Errorf "error to get movie by id: %w" err))
        | Ok None => Ret (Err ErrMoviesNotFound)
        | Ok (Some movie) =>
            if negb (uuid_eqb (UserID movie) (session_UserID session))
            then Ret (Err ErrMovieNotBelongUser)
            else
              match mu_IndicativeRatingID payload with
              | Some ratingID =>
                  r <- call (GetIndicativeRatingByID ratingID) ;;
                  match r with
                  | Err err =>
                      Ret (Err (Errorf "error to get indicative rating: %w"
                                  err))
                  | Ok None => Ret (Err ErrIndicativeRatingNotFound)
                  | Ok (Some indicativeRating) =>
                      applyAndStore payload
                        (withIndicativeRating movie indicativeRating)
                  end
              | None => applyAndStore payload movie
              end
        end
    end.

Definition deleteTask (image : MovieImage) : MovieImageDeleteTask :=
  {| dt_CloudFlareID := mi_CloudFlareID image |}.

(** The loop of [Delete] over [movie.Images]; a failed push is logged. *)
Fixpoint enqueueDeleteTasks (images : list MovieImage) : Prog unit :=
  match images with
  | [] => Ret tt
  | image :: rest =>
      call (AddDeleteTaskToQueue (deleteTask image)) ;;;
      enqueueDeleteTasks rest
  end.

Definition Delete (ctx : Context) (ID' : UUID) : Prog (option error) :=
  let '(session, ok) := assertSession ctx in
  if negb ok || isNil session then Ret (Some ErrUserNotFoundInContext)
  else
    match session with
    | None => Panic "nil pointer dereference"
    | Some session =>
        r <- call (GetByID ID' true) ;;
        match r with
        | Err err =>
            Ret (Some (Errorf "error to get movies by id error:%w" err))
        | Ok None => Ret (Some ErrMoviesNotFound)
        | Ok (Some movie) =>
            if negb (uuid_eqb (UserID movie) (session_UserID session))
            then Ret (Some ErrMovieNotBelongUser)
            else enqueueDeleteTasks (Images movie) ;;; Ret None
        end
    end.

Definition uploadFilename (task : MovieImageUploadTask) (now : Time)
  : string :=
  "movie_" ++ uuid_String (ut_MovieID task) ++ "_image_"
    ++ fmt_d (time_Unix now) ++ ".jpg".

(** The row [ProcessUploadQueue] builds from the reply of the remote
    store. *)
Definition imageRow (id : UUID) (task : MovieImageUploadTask)
  (response : UploadResponse) : MovieImage :=
  {| mi_ID := id;
     mi_MovieID := ut_MovieID task;
     mi_ImageURL := ur_URL response;
     mi_CloudFlareID := ur_ID response;
     mi_CreatedAt := zeroTime;
     mi_UpdatedAt := zeroTime |}.

Definition ProcessUploadQueue (task : MovieImageUploadTask)
  : Prog (option error) :=
  now <- call TimeNow ;;
  let filename := uploadFilename task now in
  r <- call (UploadImage (ut_Image task) filename) ;;
  match r with
  | Err err =>
      Ret (Some (Errorf "error to upload image to Cloudflare %w" err))
  | Ok response =>
      id <- call UuidNew ;;
      let movieImage := imageRow id task response in
      e <- call (CreateMovieImage movieImage) ;;
      match e with
      | Some err =>
          Ret (Some (Errorf
            "error to save movie image to the database error:%w" err))
      | None => Ret None
      end
  end.

Definition ProcessDeleteQueue (task : MovieImageDeleteTask)
  : Prog (option error) :=
  e <- call (DeleteImage (dt_CloudFlareID task)) ;;
  match e with
  | Some err =>
      Ret (Some (Errorf "error to delete image to Cloudflare %w" err))
  | None =>
      e <- call (DeleteMovieImage (dt_CloudFlareID task)) ;;
      match e with
      | Some err =>
          Ret (Some (Errorf
            "error to delete movie image to the database error:%w" err))
      | None => Ret None
      end
  end.

End MovieService.

(** ** The user service *)

Module UserService.

Definition Create (payload : UserPayload) : Prog (option error) :=
  r <- call (UserGetByEmail (up_Email payload)) ;;
  match r with
  | Err _ => Ret (Some ErrGetUserByEmail)
  | Ok (Some _) => Ret (Some ErrEmailAlreadyRegister)
  | Ok None =>
      r <- call (HashPassword (up_Password payload)) ;;
      match r with
      | Err _ => Ret (Some ErrHashingPassword)
      | Ok passwordHash =>
          user <- call (ToUser payload passwordHash) ;;
          e <- call (UserCreate user) ;;
          match e with
          | Some _ => Ret (Some ErrCreateUser)
          | None => Ret None
          end
      end
  end.

Definition SignIn (payload : SignInPayload) : Prog (result SignInResponse) :=
  r <- call (UserGetByEmail (sp_Email payload)) ;;
  match r with
  | Err _ => Ret (Err ErrGetUserByEmail)
  | Ok None => Ret (Err ErrUserNotFound)
  | Ok (Some user) =>
      e <- call (CheckPassword (user_PasswordHash user)
                   (sp_Password payload)) ;;
      match e with
      | Some _ => Ret (Err ErrInvalidPassword)
      | None =>
          r <- call (SessionCreate user) ;;
          match r with
          | Err _ => Ret (Err ErrCreateSession)
          | Ok token => Ret (Ok {| Token := token |})
          end
      end
  end.

End UserService.

(** ** The upload worker *)

(** Modelled from the spec: the loop that feeds [ProcessUploadQueue] is not
    part of the service; section 4.2 has it pull one task at a time and hand
    a failure of either step to its caller.  [fuel] bounds the number of
    tasks pulled. *)
Fixpoint UploadWorker (fuel : nat) : Prog (option error) :=
  match fuel with
  | O => Ret None
  | S n =>
      r <- call GetNextUploadTaskFromQueue ;;
      match r with
      | Err err => Ret (Some err)
      | Ok None => Ret None
      | Ok (Some task) =>
          e <- MovieService.ProcessUploadQueue task ;;
          match e with
          | Some err => Ret (Some err)
          | None => UploadWorker n
          end
      end
  end.

(** ** An in-memory implementation of the collaborators *)

(** Modelled from the spec: the relational tables, the two task lists of the
    cache store, the remote object store and the session store, with a switch
    for the failure of each piece of infrastructure.  The user table follows
    [repository/user.go]; the movie repository and the remote store are not
    among the sources and follow sections 3, 4 and 6 of the specification. *)
Record World := {
  w_ratings : list IndicativeRating;
  w_movies : list Movie;
  w_images : list MovieImage;
  w_users : list User;
  w_uploadQueue : list MovieImageUploadTask;
  w_deleteQueue : list MovieImageDeleteTask;
  w_remote : list (UploadResponse * list Byte.byte);
  w_remoteSeq : N;
  w_sessions : list (string * User);
  w_clock : Time;
  w_uuid : N;
  w_files : FileHeader -> option (list Byte.byte);
  w_dbDown : bool;
  w_cacheDown : bool;
  w_remoteDown : bool
}.

Definition setMovies (w : World) (v : list Movie) : World :=
  {| w_ratings := w_ratings w;
     w_movies := v;
     w_images := w_images w;
     w_users := w_users w;
     w_uploadQueue := w_uploadQueue w;
     w_deleteQueue := w_deleteQueue w;
     w_remote := w_remote w;
     w_remoteSeq := w_remoteSeq w;
     w_sessions := w_sessions w;
     w_clock := w_clock w;
     w_uuid := w_uuid w;
     w_files := w_files w;
     w_dbDown := w_dbDown w;
     w_cacheDown := w_cacheDown w;
     w_remoteDown := w_remoteDown w |}.

Definition setImages (w : World) (v : list MovieImage) : World :=
  {| w_ratings := w_ratings w;
     w_movies := w_movies w;
     w_images := v;
     w_users := w_users w;
     w_uploadQueue := w_uploadQueue w;
     w_deleteQueue := w_deleteQueue w;
     w_remote := w_remote w;
     w_remoteSeq := w_remoteSeq w;
     w_sessions := w_sessions w;
     w_clock := w_clock w;
     w_uuid := w_uuid w;
     w_files := w_files w;
     w_dbDown := w_dbDown w;
     w_cacheDown := w_cacheDown w;
     w_remoteDown := w_remoteDown w |}.

Definition setUsers (w : World) (v : list User) : World :=
  {| w_ratings := w_ratings w;
     w_movies := w_movies w;
     w_images := w_images w;
     w_users := v;
     w_uploadQueue := w_uploadQueue w;
     w_deleteQueue := w_deleteQueue w;
     w_remote := w_remote w;
     w_remoteSeq := w_remoteSeq w;
     w_sessions := w_sessions w;
     w_clock := w_clock w;
     w_uuid := w_uuid w;
     w_files := w_files w;
     w_dbDown := w_dbDown w;
     w_cacheDown := w_cacheDown w;
     w_remoteDown := w_remoteDown w |}.

Definition setUploadQueue (w : World) (v : list MovieImageUploadTask) : World :=
  {| w_ratings := w_ratings w;
     w_movies := w_movies w;
     w_images := w_images w;
     w_users := w_users w;
     w_uploadQueue := v;
     w_deleteQueue := w_deleteQueue w;
     w_remote := w_remote w;
     w_remoteSeq := w_remoteSeq w;
     w_sessions := w_sessions w;
     w_clock := w_clock w;
     w_uuid := w_uuid w;
     w_files := w_files w;
     w_dbDown := w_dbDown w;
     w_cacheDown := w_cacheDown w;
     w_remoteDown := w_remoteDown w |}.

Definition setDeleteQueue (w : World) (v : list MovieImageDeleteTask) : World :=
  {| w_ratings := w_ratings w;
     w_movies := w_movies w;
     w_images := w_images w;
     w_users := w_users w;
     w_uploadQueue := w_uploadQueue w;
     w_deleteQueue := v;
     w_remote := w_remote w;
     w_remoteSeq := w_remoteSeq w;
     w_sessions := w_sessions w;
     w_clock := w_clock w;
     w_uuid := w_uuid w;
     w_files := w_files w;
     w_dbDown := w_dbDown w;
     w_cacheDown := w_cacheDown w;
     w_remoteDown := w_remoteDown w |}.

Definition setRemote (w : World) (v : list (UploadResponse * list Byte.byte)) : World :=
  {| w_ratings := w_ratings w;
     w_movies := w_movies w;
     w_images := w_images w;
     w_users := w_users w;
     w_uploadQueue := w_uploadQueue w;
     w_deleteQueue := w_deleteQueue w;
     w_remote := v;
     w_remoteSeq := w_remoteSeq w;
     w_sessions := w_sessions w;
     w_clock := w_clock w;
     w_uuid := w_uuid w;
     w_files := w_files w;
     w_dbDown := w_dbDown w;
     w_cacheDown := w_cacheDown w;
     w_remoteDown := w_remoteDown w |}.

Definition setRemoteSeq (w : World) (v : N) : World :=
  {| w_ratings := w_ratings w;
     w_movies := w_movies w;
     w_images := w_images w;
     w_users := w_users w;
     w_uploadQueue := w_uploadQueue w;
     w_deleteQueue := w_deleteQueue w;
     w_remote := w_remote w;
     w_remoteSeq := v;
     w_sessions := w_sessions w;
     w_clock := w_clock w;
     w_uuid := w_uuid w;
     w_files := w_files w;
     w_dbDown := w_dbDown w;
     w_cacheDown := w_cacheDown w;
     w_remoteDown := w_remoteDown w |}.

Definition setSessions (w : World) (v : list (string * User)) : World :=
  {| w_ratings := w_ratings w;
     w_movies := w_movies w;
     w_images := w_images w;
     w_users := w_users w;
     w_uploadQueue := w_uploadQueue w;
     w_deleteQueue := w_deleteQueue w;
     w_remote := w_remote w;
     w_remoteSeq := w_remoteSeq w;
     w_sessions := v;
     w_clock := w_clock w;
     w_uuid := w_uuid w;
     w_files := w_files w;
     w_dbDown := w_dbDown w;
     w_cacheDown := w_cacheDown w;
     w_remoteDown := w_remoteDown w |}.

Definition setUuid (w : World) (v : N) : World :=
  {| w_ratings := w_ratings w;
     w_movies := w_movies w;
     w_images := w_images w;
     w_users := w_users w;
     w_uploadQueue := w_uploadQueue w;
     w_deleteQueue := w_deleteQueue w;
     w_remote := w_remote w;
     w_remoteSeq := w_remoteSeq w;
     w_sessions := w_sessions w;
     w_clock := w_clock w;
     w_uuid := v;
     w_files := w_files w;
     w_dbDown := w_dbDown w;
     w_cacheDown := w_cacheDown w;
     w_remoteDown := w_remoteDown w |}.

Definition dbError : error := ErrExternal "database unavailable".
Definition cacheError : error := ErrExternal "cache store unavailable".
Definition remoteError : error := ErrExternal "remote store unavailable".
Definition fileError : error := ErrExternal "cannot read uploaded file".
Definition passwordError : error := ErrExternal "hash and password differ".

Definition decimal (n : N) : string := fmt_d (Z.of_N n).

(** The rows of [MovieImage] that belong to one movie. *)
Definition imagesOf (movieID : UUID) (images : list MovieImage)
  : list MovieImage :=
  filter (fun i => uuid_eqb (mi_MovieID i) movieID) images.

Definition withImages (m : Movie) (images : list MovieImage) : Movie :=
  {| ID := ID m; IndicativeRatingID := IndicativeRatingID m;
     UserID := UserID m; Title := Title m; Duration := Duration m;
     MovieUser := MovieUser m;
     MovieIndicativeRating := MovieIndicativeRating m;
     CreatedAt := CreatedAt m; UpdatedAt := UpdatedAt m;
     Images := images |}.

(** Modelled from the spec: the reply of the remote store to its [seq]-th
    upload, a fresh identifier and the public URL under it. *)
Definition remoteReply (seq : N) (filename : string) : UploadResponse :=
  let id := ("img-" ++ decimal seq)%string in
  {| ur_URL := ("https://imagedelivery.net/" ++ id ++ "/" ++ filename)%string;
     ur_ID := id |}.

Definition remoteHas (id : string)
  (objects : list (UploadResponse * list Byte.byte)) : bool :=
  existsb (fun o => String.eqb (ur_ID (fst o)) id) objects.

(** Modelled from the spec: the [ToUser] of the sign-up payload, which is not
    among the sources. *)
Definition userOfPayload (id : UUID) (now : Time) (payload : UserPayload)
  (passwordHash : string) : User :=
  {| user_ID := id;
     user_FirstName := up_FirstName payload;
     user_LastName := up_LastName payload;
     user_Email := up_Email payload;
     user_PasswordHash := passwordHash;
     user_BirthDate := up_BirthDate payload;
     user_CreatedAt := now;
     user_UpdatedAt := zeroTime |}.

(** Modelled from the spec: what each collaborator does on the in-memory
    world.  [UserGetByEmail] and [UserCreate] follow [repository/user.go]: no
    row under the email is a nil user with a nil error. *)
Definition mem : handler World := fun X c =>
  match c in Cmd X return World -> X * World with
  | GetIndicativeRatingByID id => fun w =>
      if w_dbDown w then (Err dbError, w)
      else (Ok (find (fun r => uuid_eqb (ir_ID r) id) (w_ratings w)), w)
  | MovieCreate movie => fun w =>
      if w_dbDown w then (Some dbError, w)
      else (None, setMovies w (w_movies w ++ [movie]))
  | AddUploadTaskToQueue task => fun w =>
      if w_cacheDown w then (Some cacheError, w)
      else (None, setUploadQueue w (w_uploadQueue w ++ [task]))
  | GetALlByUserID userID pagination => fun w =>
      if w_dbDown w then (Err dbError, w)
      else
        let rows :=
          map (fun m => Some (withImages m (imagesOf (ID m) (w_images w))))
            (filter (fun m => uuid_eqb (UserID m) userID) (w_movies w)) in
        (Ok (Some (withRows pagination (RowsMovies rows))), w)
  | GetByID id preload => fun w =>
      if w_dbDown w then (Err dbError, w)
      else
        (Ok (option_map
               (fun m => if preload
                         then withImages m (imagesOf (ID m) (w_images w))
                         else m)
               (find (fun m => uuid_eqb (ID m) id) (w_movies w))), w)
  | MovieUpdate movie => fun w =>
      if w_dbDown w then (Some dbError, w)
      else
        (None, setMovies w
                 (map (fun m => if uuid_eqb (ID m) (ID movie)
                                then withImages movie [] else m)
                    (w_movies w)))
  | AddDeleteTaskToQueue task => fun w =>
      if w_cacheDown w then (Some cacheError, w)
      else (None, setDeleteQueue w (w_deleteQueue w ++ [task]))
  | CreateMovieImage movieImage => fun w =>
      if w_dbDown w then (Some dbError, w)
      else (None, setImages w (w_images w ++ [movieImage]))
  | DeleteMovieImage cloudFlareID => fun w =>
      if w_dbDown w then (Some dbError, w)
      else
        (None, setImages w
                 (filter (fun i => negb (String.eqb (mi_CloudFlareID i)
                                           cloudFlareID))
                    (w_images w)))
  | GetNextUploadTaskFromQueue => fun w =>
      if w_cacheDown w then (Err cacheError, w)
      else
        match w_uploadQueue w with
        | [] => (Ok None, w)
        | task :: rest => (Ok (Some task), setUploadQueue w rest)
        end
  | UploadImage image filename => fun w =>
      if w_remoteDown w then (Err remoteError, w)
      else
        let reply := remoteReply (w_remoteSeq w) filename in
        (Ok reply,
         setRemoteSeq (setRemote w (w_remote w ++ [(reply, image)]))
           (w_remoteSeq w + 1)%N)
  | DeleteImage id => fun w =>
      if w_remoteDown w then (Some remoteError, w)
      else if remoteHas id (w_remote w)
      then (None, setRemote w
                    (filter (fun o => negb (String.eqb (ur_ID (fst o)) id))
                       (w_remote w)))
      else (Some (ErrExternal "no such object"), w)
  | ConvertImageToBytes image => fun w =>
      match w_files w image with
      | Some content => (Ok content, w)
      | None => (Err fileError, w)
      end
  | UuidNew => fun w => (w_uuid w, setUuid w (w_uuid w + 1)%N)
  | TimeNow => fun w => (w_clock w, w)
  | UserGetByEmail email => fun w =>
      if w_dbDown w then (Err dbError, w)
      else (Ok (find (fun u => String.eqb (user_Email u) email) (w_users w)), w)
  | UserCreate user => fun w =>
      if w_dbDown w then (Some dbError, w)
      else (None, setUsers w (w_users w ++ [user]))
  | HashPassword password => fun w => (Ok ("hash:" ++ password)%string, w)
  | CheckPassword hash password => fun w =>
      if String.eqb hash ("hash:" ++ password)%string then (None, w)
      else (Some passwordError, w)
  | ToUser payload passwordHash => fun w =>
      (userOfPayload (w_uuid w) (w_clock w) payload passwordHash,
       setUuid w (w_uuid w + 1)%N)
  | SessionCreate user => fun w =>
      if w_cacheDown w then (Err cacheError, w)
      else
        let token :=
          ("token-" ++ decimal (N.of_nat (List.length (w_sessions w))))%string in
        (Ok token, setSessions w (w_sessions w ++ [(token, user)]))
  end.

(** ** Reading a list of calls *)

Definition isMovieCreate (e : Event) : bool :=
  match e with Ev (MovieCreate _) _ => true | _ => false end.

Definition isUserCreate (e : Event) : bool :=
  match e with Ev (UserCreate _) _ => true | _ => false end.

Definition isSessionCreate (e : Event) : bool :=
  match e with Ev (SessionCreate _) _ => true | _ => false end.

Definition isCreateMovieImage (e : Event) : bool :=
  match e with Ev (CreateMovieImage _) _ => true | _ => false end.

Definition isDeleteMovieImage (e : Event) : bool :=
  match e with Ev (DeleteMovieImage _) _ => true | _ => false end.

Definition isAddDeleteTask (e : Event) : bool :=
  match e with Ev (AddDeleteTaskToQueue _) _ => true | _ => false end.

(** The images handed to [utils.ConvertImageToBytes], in order. *)
Fixpoint convertedImages (tr : list Event) : list FileHeader :=
  match tr with
  | [] => []
  | Ev (ConvertImageToBytes image) _ :: rest => image :: convertedImages rest
  | _ :: rest => convertedImages rest
  end.

(** The byte payloads of the conversions that succeeded, in order. *)
Fixpoint convertedBytes (tr : list Event) : list (list Byte.byte) :=
  match tr with
  | [] => []
  | Ev (ConvertImageToBytes _) (Ok content) :: rest =>
      content :: convertedBytes rest
  | _ :: rest => convertedBytes rest
  end.

(** The tasks handed to [AddUploadTaskToQueue], in order. *)
Fixpoint pushedTasks (tr : list Event) : list MovieImageUploadTask :=
  match tr with
  | [] => []
  | Ev (AddUploadTaskToQueue task) _ :: rest => task :: pushedTasks rest
  | _ :: rest => pushedTasks rest
  end.

(** The tasks whose push returned no error: the tasks produced. *)
Fixpoint producedTasks (tr : list Event) : list MovieImageUploadTask :=
  match tr with
  | [] => []
  | Ev (AddUploadTaskToQueue task) None :: rest => task :: producedTasks rest
  | _ :: rest => producedTasks rest
  end.

(** The replies of the remote store to the uploads that succeeded. *)
Fixpoint uploadReplies (tr : list Event) : list UploadResponse :=
  match tr with
  | [] => []
  | Ev (UploadImage _ _) (Ok reply) :: rest => reply :: uploadReplies rest
  | _ :: rest => uploadReplies rest
  end.

(** The rows handed to [CreateMovieImage], and those whose write returned no
    error: the rows persisted. *)
Fixpoint attemptedRows (tr : list Event) : list MovieImage :=
  match tr with
  | [] => []
  | Ev (CreateMovieImage row) _ :: rest => row :: attemptedRows rest
  | _ :: rest => attemptedRows rest
  end.

Fixpoint persistedRows (tr : list Event) : list MovieImage :=
  match tr with
  | [] => []
  | Ev (CreateMovieImage row) None :: rest => row :: persistedRows rest
  | _ :: rest => persistedRows rest
  end.

(** The movie rows written: [Create] of the movie repository returning no
    error. *)
Fixpoint createdMovies (tr : list Event) : list Movie :=
  match tr with
  | [] => []
  | Ev (MovieCreate movie) None :: rest => movie :: createdMovies rest
  | _ :: rest => createdMovies rest
  end.

(** The movies handed to [Update] of the movie repository. *)
Fixpoint updatedMovies (tr : list Event) : list Movie :=
  match tr with
  | [] => []
  | Ev (MovieUpdate movie) _ :: rest => movie :: updatedMovies rest
  | _ :: rest => updatedMovies rest
  end.

(** The movies [GetByID] found, and the ratings [GetIndicativeRatingByID]
    found. *)
Fixpoint fetchedMovies (tr : list Event) : list Movie :=
  match tr with
  | [] => []
  | Ev (GetByID _ _) (Ok (Some movie)) :: rest => movie :: fetchedMovies rest
  | _ :: rest => fetchedMovies rest
  end.

Fixpoint fetchedRatings (tr : list Event) : list (UUID * IndicativeRating) :=
  match tr with
  | [] => []
  | Ev (GetIndicativeRatingByID id) (Ok (Some rating)) :: rest =>
      (id, rating) :: fetchedRatings rest
  | _ :: rest => fetchedRatings rest
  end.

(** The session a context carries, if any. *)
Definition sessionOf (ctx : Context) : option Session :=
  fst (assertSession ctx).

(** What happened to one image of a creation payload. *)
Inductive ImageOutcome : Type :=
| ConversionFailed (err : error)
| PushFailed (content : list Byte.byte) (err : error)
| Enqueued (content : list Byte.byte).

(** The calls that go with an outcome, and the task it leaves in the
    queue. *)
Definition imageCalls (movieID userID : UUID)
  (io : FileHeader * ImageOutcome) : list Event :=
  match snd io with
  | ConversionFailed err => [Ev (ConvertImageToBytes (fst io)) (Err err)]
  | PushFailed content err =>
      [Ev (ConvertImageToBytes (fst io)) (Ok content);
       Ev (AddUploadTaskToQueue
             (MovieService.uploadTask movieID userID content)) (Some err)]
  | Enqueued content =>
      [Ev (ConvertImageToBytes (fst io)) (Ok content);
       Ev (AddUploadTaskToQueue
             (MovieService.uploadTask movieID userID content)) None]
  end.

Definition enqueuedTask (movieID userID : UUID) (o : ImageOutcome)
  : list MovieImageUploadTask :=
  match o with
  | Enqueued content => [MovieService.uploadTask movieID userID content]
  | _ => []
  end.

(** The calls of the loop of [Delete]: one push per image, with its reply. *)
Definition deleteCalls (ir : list (MovieImage * option error)) : list Event :=
  map (fun p => Ev (AddDeleteTaskToQueue (MovieService.deleteTask (fst p)))
                  (snd p)) ir.

(** Every piece of infrastructure of the in-memory world answers. *)
Definition healthy (w : World) : Prop :=
  w_dbDown w = false /\ w_cacheDown w = false /\ w_remoteDown w = false.

(** ** Sample data *)

Module Sample.

Definition poster : FileHeader :=
  {| fh_Filename := "poster.jpg"; fh_Size := 3 |}.
Definition broken : FileHeader :=
  {| fh_Filename := "broken.jpg"; fh_Size := 0 |}.
Definition still : FileHeader :=
  {| fh_Filename := "still.jpg"; fh_Size := 2 |}.

Definition files (f : FileHeader) : option (list Byte.byte) :=
  if String.eqb (fh_Filename f) "poster.jpg"
  then Some [Byte.x01; Byte.x02; Byte.x03]
  else if String.eqb (fh_Filename f) "still.jpg"
  then Some [Byte.x04; Byte.x05]
  else None.

Definition rating : IndicativeRating :=
  {| ir_ID := 7%N; ir_Description := "L"; ir_ImageURL := "l.png";
     ir_CreatedAt := 1600000000%Z; ir_UpdatedAt := zeroTime |}.

Definition rating12 : IndicativeRating :=
  {| ir_ID := 8%N; ir_Description := "12"; ir_ImageURL := "12.png";
     ir_CreatedAt := 1600000000%Z; ir_UpdatedAt := zeroTime |}.

Definition alice : User :=
  {| user_ID := 5%N; user_FirstName := "Alice"; user_LastName := "Doe";
     user_Email := "alice@example.com";
     user_PasswordHash := "hash:Str0ngP@ssw0rd!";
     user_BirthDate := 631152000%Z; user_CreatedAt := 1600000000%Z;
     user_UpdatedAt := zeroTime |}.

Definition aliceSession : Session := {| session_UserID := 5%N |}.
Definition bobSession : Session := {| session_UserID := 6%N |}.

Definition oldImage : MovieImage :=
  {| mi_ID := 41%N; mi_MovieID := 40%N;
     mi_ImageURL := "https://imagedelivery.net/img-old/a.jpg";
     mi_CloudFlareID := "img-old"; mi_CreatedAt := zeroTime;
     mi_UpdatedAt := zeroTime |}.

Definition oldMovie : Movie :=
  {| ID := 40%N; IndicativeRatingID := 7%N; UserID := 5%N;
     Title := "Old"; Duration := 100%Z; MovieUser := zeroUser;
     MovieIndicativeRating := zeroIndicativeRating;
     CreatedAt := 1650000000%Z; UpdatedAt := zeroTime; Images := [] |}.

Definition world : World :=
  {| w_ratings := [rating; rating12];
     w_movies := [oldMovie];
     w_images := [oldImage];
     w_users := [alice];
     w_uploadQueue := [];
     w_deleteQueue := [];
     w_remote := [({| ur_URL := "https://imagedelivery.net/img-old/a.jpg";
                      ur_ID := "img-old" |}, [Byte.x09])];
     w_remoteSeq := 0%N;
     w_sessions := [];
     w_clock := 1700000000%Z;
     w_uuid := 100%N;
     w_files := files;
     w_dbDown := false;
     w_cacheDown := false;
     w_remoteDown := false |}.

(** The same world with the database out of reach. *)
Definition worldDbDown : World :=
  {| w_ratings := w_ratings world; w_movies := w_movies world;
     w_images := w_images world; w_users := w_users world;
     w_uploadQueue := w_uploadQueue world;
     w_deleteQueue := w_deleteQueue world; w_remote := w_remote world;
     w_remoteSeq := w_remoteSeq world; w_sessions := w_sessions world;
     w_clock := w_clock world; w_uuid := w_uuid world;
     w_files := w_files world; w_dbDown := true;
     w_cacheDown := false; w_remoteDown := false |}.

Definition payload : MoviePayload :=
  {| mp_Images := [poster; still]; mp_IndicativeRatingID := 7%N;
     mp_Title := "Central do Brasil"; mp_Duration := 113%Z |}.

Definition payloadBrokenImage : MoviePayload :=
  {| mp_Images := [poster; broken; still]; mp_IndicativeRatingID := 7%N;
     mp_Title := "Central do Brasil"; mp_Duration := 113%Z |}.

Definition payloadUnknownRating : MoviePayload :=
  {| mp_Images := [poster]; mp_IndicativeRatingID := 99%N;
     mp_Title := "Central do Brasil"; mp_Duration := 113%Z |}.

Definition task : MovieImageUploadTask :=
  {| ut_MovieID := 40%N; ut_Image := [Byte.x01]; ut_UserID := 5%N |}.

Definition aliceAgain : UserPayload :=
  {| up_FirstName := "Alice"; up_LastName := "Doe";
     up_Email := "alice@example.com";
     up_ConfirmEmail := "alice@example.com";
     up_Password := "An0ther#Pass"; up_ConfirmPassword := "An0ther#Pass";
     up_BirthDate := 631152000%Z |}.

Definition rightPassword : SignInPayload :=
  {| sp_Email := "alice@example.com"; sp_Password := "Str0ngP@ssw0rd!" |}.
Definition wrongPassword : SignInPayload :=
  {| sp_Email := "alice@example.com"; sp_Password := "guess" |}.
Definition unknownEmail : SignInPayload :=
  {| sp_Email := "carol@example.com"; sp_Password := "Str0ngP@ssw0rd!" |}.

Definition retitle : MovieUpdatePayload :=
  {| mu_Title := Some "New title"; mu_Duration := None;
     mu_IndicativeRatingID := None |}.

(** The movie [ToMovie] builds from [payloadBrokenImage] for Alice in
    [world], and [oldMovie] as [GetByID] loads it, with its images. *)
Definition newMovie : Movie :=
  {| ID := 100%N; IndicativeRatingID := 7%N; UserID := 5%N;
     Title := "Central do Brasil"; Duration := 113%Z;
     MovieUser := zeroUser;
     MovieIndicativeRating := zeroIndicativeRating;
     CreatedAt := 1700000000%Z; UpdatedAt := zeroTime; Images := [] |}.

Definition oldMovieLoaded : Movie := withImages oldMovie [oldImage].

End Sample.
(** ** Further readers of a list of calls *)

(** The users handed to [Create] of the user repository, and those whose
    write returned no error. *)
Fixpoint userCreateAttempts (tr : list Event) : list User :=
  match tr with
  | [] => []
  | Ev (UserCreate user) _ :: rest => user :: userCreateAttempts rest
  | _ :: rest => userCreateAttempts rest
  end.

Fixpoint createdUsers (tr : list Event) : list User :=
  match tr with
  | [] => []
  | Ev (UserCreate user) None :: rest => user :: createdUsers rest
  | _ :: rest => createdUsers rest
  end.


(** The identifiers handed to [DeleteImage] of the remote store. *)
Fixpoint remoteDeletes (tr : list Event) : list string :=
  match tr with
  | [] => []
  | Ev (DeleteImage id) _ :: rest => id :: remoteDeletes rest
  | _ :: rest => remoteDeletes rest
  end.

(** The errors the user service hands to its caller. *)
Definition userServiceError (e : error) : bool :=
  match e with
  | ErrGetUserByEmail | ErrEmailAlreadyRegister | ErrHashingPassword
  | ErrCreateUser | ErrUserNotFound | ErrInvalidPassword
  | ErrCreateSession => true
  | _ => false
  end.

(** ** The list of indicative ratings *)

(** What [GetAllIndicativeRatings] returns beside a list: the sentinel of
    package [domain] or the repository's error under [fmt.Errorf]. *)
Inductive ratingsError : Type :=
| ErrIndicativeRatingsNotFound
| RatingsErrorf (format : string) (wrapped : error).

(** The loop over the ratings; the slice holds pointers and the conversion
    dereferences each. *)
Fixpoint ratingsToResponses (ratings : list (option IndicativeRating))
  : option (list IndicativeRatingResponse) :=
  match ratings with
  | [] => Some []
  | None :: _ => None
  | Some rating :: rest =>
      match ratingsToResponses rest with
      | Some rs => Some (ToIndicativeRatingResponse rating :: rs)
      | None => None
      end
  end.

Section IndicativeRatings.
Variable W : Type.

(** [GetAllIndicativeRating] of the movie repository, a parameter: its reply
    (a nil slice is [None]) and the next state. *)
Variable GetAllIndicativeRating
  : W -> result (option (list (option IndicativeRating))) * W.

Definition GetAllIndicativeRatings (w : W)
  : outcome (list IndicativeRatingResponse + ratingsError) * W :=
  let '(r, w1) := GetAllIndicativeRating w in
  match r with
  | Err err =>
      (Done (inr (RatingsErrorf "error to get all indicative ratings %w" err)),
       w1)
  | Ok None => (Done (inr ErrIndicativeRatingsNotFound), w1)
  | Ok (Some indicativeRatings) =>
      match ratingsToResponses indicativeRatings with
      | Some indicativeRatingsResponse =>
          (Done (inl indicativeRatingsResponse), w1)
      | None => (Panicked "nil pointer dereference", w1)
      end
  end.
End IndicativeRatings.

Arguments GetAllIndicativeRatings {W} GetAllIndicativeRating w.

(** ** The user repository of [repository/user.go] *)

Module UserRepository.
Section Gorm.
Variable W : Type.

(** The two statements the repository runs on the ORM and the test
    [errors.Is(err, gorm.ErrRecordNotFound)], as parameters. *)
Variable dbCreate : User -> W -> option error * W.
Variable dbFirstByEmail : string -> W -> result User * W.
Variable isRecordNotFound : error -> bool.

Definition Create (user : User) (w : W) : option error * W :=
  let '(e, w1) := dbCreate user w in
  match e with
  | Some err => (Some err, w1)
  | None => (None, w1)
  end.

Definition GetByEmail (email : string) (w : W) : result (option User) * W :=
  let '(r, w1) := dbFirstByEmail email w in
  match r with
  | Err err =>
      if isRecordNotFound err then (Ok None, w1) else (Err err, w1)
  | Ok user => (Ok (Some user), w1)
  end.

(** The collaborators [base] with this repository as the user repository. *)
Definition serve (base : handler W) : handler W := fun X c =>
  match c in Cmd X return W -> X * W with
  | UserGetByEmail email => GetByEmail email
  | UserCreate user => Create user
  | c' => base _ c'
  end.
End Gorm.
End UserRepository.

Arguments UserRepository.serve {W} dbCreate dbFirstByEmail isRecordNotFound
  base X c.

(** A database for the sample data: the user table of the in-memory world
    behind the interface of the ORM. *)
Module SampleDb.

Definition notFound : error := ErrExternal "record not found".
Definition refused : error := ErrExternal "connection refused".

Definition isRecordNotFound (e : error) : bool :=
  match e with
  | ErrExternal msg => String.eqb msg "record not found"
  | _ => false
  end.

Definition dbCreate (user : User) (w : World) : option error * World :=
  if w_dbDown w then (Some refused, w)
  else (None, setUsers w (w_users w ++ [user])).

Definition dbFirstByEmail (email : string) (w : World) : result User * World :=
  if w_dbDown w then (Err refused, w)
  else
    match find (fun u => String.eqb (user_Email u) email) (w_users w) with
    | Some user => (Ok user, w)
    | None => (Err notFound, w)
    end.

Definition collaborators : handler World :=
  UserRepository.serve dbCreate dbFirstByEmail isRecordNotFound mem.

Definition carol : UserPayload :=
  {| up_FirstName := "Carol"; up_LastName := "Roe";
     up_Email := "carol@example.com";
     up_ConfirmEmail := "carol@example.com";
     up_Password := "S3cret#Pass"; up_ConfirmPassword := "S3cret#Pass";
     up_BirthDate := 662688000%Z |}.

Definition page : Pagination :=
  {| pg_Limit := 10; pg_Page := 1; pg_Sort := "createdAt desc";
     pg_TotalRows := 0; pg_TotalPages := 0; pg_Rows := RowsNil |}.


(** The in-memory world whose cache store is out of reach. *)
Definition worldCacheDown : World :=
  {| w_ratings := w_ratings Sample.world; w_movies := w_movies Sample.world;
     w_images := w_images Sample.world; w_users := w_users Sample.world;
     w_uploadQueue := w_uploadQueue Sample.world;
     w_deleteQueue := w_deleteQueue Sample.world;
     w_remote := w_remote Sample.world;
     w_remoteSeq := w_remoteSeq Sample.world;
     w_sessions := w_sessions Sample.world;
     w_clock := w_clock Sample.world; w_uuid := w_uuid Sample.world;
     w_files := w_files Sample.world; w_dbDown := false;
     w_cacheDown := true; w_remoteDown := false |}.

(** A repository of ratings over the in-memory world. *)
Definition allRatings (w : World)
  : result (option (list (option IndicativeRating))) * World :=
  if w_dbDown w then (Err dbError, w)
  else (Ok (Some (map Some (w_ratings w))), w).

(** A movie repository whose listing misbehaves, by user: no page for user
    1, rows of another type for user 2, a nil row for user 3. *)
Definition oddListing (userID : UUID) (pagination : Pagination)
  : result (option Pagination) :=
  if uuid_eqb userID 1%N then Ok None
  else if uuid_eqb userID 2%N then Ok (Some (withRows pagination RowsOther))
  else Ok (Some (withRows pagination
                   (RowsMovies [Some Sample.oldMovieLoaded; None]))).

Definition oddCollaborators : handler World := fun X c =>
  match c in Cmd X return World -> X * World with
  | GetALlByUserID userID pagination => fun w =>
      (oddListing userID pagination, w)
  | c' => mem _ c'
  end.

Definition carolUser : User :=
  userOfPayload 100%N 1700000000%Z carol "hash:S3cret#Pass".

(** The row [ProcessUploadQueue] persists for [Sample.task] in
    [Sample.world]. *)
Definition uploadedRow : MovieImage :=
  MovieService.imageRow 100%N Sample.task
    (remoteReply 0%N (MovieService.uploadFilename Sample.task 1700000000%Z)).

Definition alicePage : Pagination :=
  withRows page (RowsMovies (map Some [Sample.oldMovieLoaded])).

End SampleDb.

(** * Properties of the services *)

(** One call: name the reply and the next state of the collaborators. *)
Ltac step h :=
  match goal with
  | |- context [h ?X ?c ?w] =>
      let x := fresh "x" in
      let w' := fresh "w" in
      let E := fresh "E" in
      destruct (h X c w) as [x w'] eqn:E; simpl
  end.

(** ** Against any implementation of the collaborators *)

Section Generic.
Variable W : Type.
Variable h : handler W.

(** Running a sequence: the calls of the first part, then those of the
    second; a panic in the first part ends the run. *)
Lemma run_bind {A B : Type} (p : Prog A) (f : A -> Prog B) (w : W) :
  run h (bind p f) w =
  match run h p w with
  | (Done a, w1, tr1) =>
      let '(o, w2, tr2) := run h (f a) w1 in (o, w2, tr1 ++ tr2)
  | (Panicked msg, w1, tr1) => (Panicked msg, w1, tr1)
  end.
Proof.
  revert w. induction p as [a | msg | X c k IH]; intro w; simpl.
  - destruct (run h (f a) w) as [[o w2] tr2]. reflexivity.
  - reflexivity.
  - destruct (h X c w) as [x w1]. rewrite IH.
    destruct (run h (k x) w1) as [[[a | msg] w2] tr1].
    + destruct (run h (f a) w2) as [[o w3] tr2]. reflexivity.
    + reflexivity.
Qed.

(** C1, as amended.  [ProcessUploadQueue] reads the clock and uploads; when
    the upload fails it returns the wrapped error and makes no further call;
    when the upload returns a reply it draws an identifier and hands
    [CreateMovieImage] the row built from that reply.  So [CreateMovieImage]
    is called if and only if the upload succeeded, and after it; a row is
    persisted only if the upload succeeded; and a row is persisted exactly
    when the consumer returns no error. *)
Theorem upload_consumer_persists_only_after_upload
  (task : MovieImageUploadTask) (w : W) :
  let r := run h (MovieService.ProcessUploadQueue task) w in
  ((exists now err,
      calls r =
        [Ev TimeNow now;
         Ev (UploadImage (ut_Image task)
               (MovieService.uploadFilename task now)) (Err err)]
      /\ returned r =
           Done (Some (Errorf "error to upload image to Cloudflare %w" err)))
   \/
   (exists now reply id e,
      calls r =
        [Ev TimeNow now;
         Ev (UploadImage (ut_Image task)
               (MovieService.uploadFilename task now)) (Ok reply);
         Ev UuidNew id;
         Ev (CreateMovieImage (MovieService.imageRow id task reply)) e]
      /\ returned r =
           Done (match e with
                 | Some err =>
                     Some (Errorf
                       "error to save movie image to the database error:%w"
                       err)
                 | None => None
                 end)))
  /\ (attemptedRows (calls r) <> [] <-> uploadReplies (calls r) <> [])
  /\ (persistedRows (calls r) <> [] -> uploadReplies (calls r) <> [])
  /\ (uploadReplies (calls r) = [] -> persistedRows (calls r) = [])
  /\ (persistedRows (calls r) <> [] <-> returned r = Done None).
Proof.
  unfold MovieService.ProcessUploadQueue, calls, returned; simpl.
  step h. step h. destruct x0 as [reply | err]; simpl.
  - step h. step h. destruct x1 as [err | ]; simpl.
    + split; [right; exists x, reply, x0, (Some err); auto | ].
      repeat split; intros; try congruence; try discriminate.
    + split; [right; exists x, reply, x0, None; auto | ].
      repeat split; intros; try congruence; try discriminate.
  - split; [left; exists x, err; auto | ].
    repeat split; intros; try congruence; try discriminate.
Qed.

(** C8.  [ProcessDeleteQueue] first deletes the remote object by its
    identifier.  When that fails the wrapped error is returned and
    [DeleteMovieImage] is not called; otherwise the row is deleted by the same
    identifier and a failure of that deletion is returned wrapped. *)
Theorem delete_consumer_remote_first
  (task : MovieImageDeleteTask) (w : W) :
  let r := run h (MovieService.ProcessDeleteQueue task) w in
  (exists err,
     calls r = [Ev (DeleteImage (dt_CloudFlareID task)) (Some err)]
     /\ returned r =
          Done (Some (Errorf "error to delete image to Cloudflare %w" err))
     /\ filter isDeleteMovieImage (calls r) = [])
  \/
  (exists e,
     calls r =
       [Ev (DeleteImage (dt_CloudFlareID task)) None;
        Ev (DeleteMovieImage (dt_CloudFlareID task)) e]
     /\ returned r =
          Done (match e with
                | Some err =>
                    Some (Errorf
                      "error to delete movie image to the database error:%w"
                      err)
                | None => None
                end)).
Proof.
  unfold MovieService.ProcessDeleteQueue, calls, returned; simpl.
  step h. destruct x as [err | ]; simpl.
  - left. exists err. auto.
  - step h. right. exists x. destruct x; auto.
Qed.

(** C4.  When the repository finds no indicative rating for the identifier
    of the payload, [Create] returns an error and never calls the movie
    repository's [Create]; for a request that carries a session the error is
    [ErrIndicativeRatingNotFound] and the lookup is the only call made. *)
Theorem create_unknown_rating_writes_no_movie
  (ctx : Context) (payload : MoviePayload) (w w1 : W) :
  h _ (GetIndicativeRatingByID (mp_IndicativeRatingID payload)) w
    = (Ok None, w1) ->
  let r := run h (MovieService.Create ctx payload) w in
  exists e,
    returned r = Done (Err e)
    /\ filter isMovieCreate (calls r) = []
    /\ createdMovies (calls r) = []
    /\ (forall s, sessionOf ctx = Some s ->
          e = ErrIndicativeRatingNotFound
          /\ calls r =
               [Ev (GetIndicativeRatingByID (mp_IndicativeRatingID payload))
                  (Ok None)]
          /\ final r = w1).
Proof.
  intros Hrating.
  unfold MovieService.Create, calls, returned, final, sessionOf.
  destruct ctx as [ | | [s | ]]; simpl.
  - exists ErrUserNotFoundInContext. repeat split; auto; discriminate.
  - exists ErrUserNotFoundInContext. repeat split; auto; discriminate.
  - rewrite Hrating; simpl. exists ErrIndicativeRatingNotFound.
    repeat split; auto.
  - exists ErrUserNotFoundInContext. repeat split; auto; discriminate.
Qed.

(** The loop of [Delete] always ends and pushes once per image. *)
Lemma enqueueDeleteTasks_run (images : list MovieImage) (w : W) :
  exists w' replies,
    List.length replies = List.length images
    /\ run h (MovieService.enqueueDeleteTasks images) w
       = (Done tt, w', deleteCalls (combine images replies)).
Proof.
  revert w. induction images as [ | image rest IH]; intro w; simpl.
  - exists w, []. auto.
  - destruct (h _ (AddDeleteTaskToQueue (MovieService.deleteTask image)) w)
      as [x w1].
    destruct (IH w1) as (w' & replies & Hlen & ->).
    exists w', (x :: replies). simpl. auto.
Qed.

Lemma fetchedMovies_deleteCalls (ir : list (MovieImage * option error)) :
  fetchedMovies (deleteCalls ir) = [].
Proof. induction ir as [ | p rest IH]; simpl; auto. Qed.

(** C5.  When the movie found belongs to another user than the one of the
    session, [Delete] returns [ErrMovieNotBelongUser] after the single read
    and pushes no delete task; and whenever [Delete] pushes a delete task, the
    context carries a session whose user owns the movie found. *)
Theorem delete_foreign_movie_enqueues_nothing :
  (forall (s : Session) (id : UUID) (movie : Movie) (w w1 : W),
      h _ (GetByID id true) w = (Ok (Some movie), w1) ->
      UserID movie <> session_UserID s ->
      let r := run h (MovieService.Delete (CtxSession (Some s)) id) w in
      returned r = Done (Some ErrMovieNotBelongUser)
      /\ calls r = [Ev (GetByID id true) (Ok (Some movie))]
      /\ filter isAddDeleteTask (calls r) = []
      /\ final r = w1)
  /\
  (forall (ctx : Context) (id : UUID) (w : W),
      let r := run h (MovieService.Delete ctx id) w in
      filter isAddDeleteTask (calls r) <> [] ->
      exists s movie,
        sessionOf ctx = Some s
        /\ fetchedMovies (calls r) = [movie]
        /\ UserID movie = session_UserID s).
Proof.
  split.
  - intros s id movie w w1 Hget Hneq.
    unfold MovieService.Delete, calls, returned, final; simpl.
    rewrite Hget; simpl.
    apply N.eqb_neq in Hneq. unfold uuid_eqb. rewrite Hneq; simpl. auto.
  - intros ctx id w.
    unfold MovieService.Delete, calls, sessionOf.
    destruct ctx as [ | | [s | ]]; simpl; try congruence.
    step h. destruct x as [[movie | ] | err]; simpl; try congruence.
    destruct (uuid_eqb (UserID movie) (session_UserID s)) eqn:Hown;
      simpl; try congruence.
    rewrite run_bind.
    destruct (enqueueDeleteTasks_run (Images movie) w0)
      as (w' & replies & _ & ->); simpl.
    intros _. exists s, movie. rewrite app_nil_r, fetchedMovies_deleteCalls.
    apply N.eqb_eq in Hown. auto.
Qed.

(** C6.  When the repository finds a user with the email of the payload,
    the user service's [Create] returns [ErrEmailAlreadyRegister]; the lookup
    is its only call, so neither the repository's [Create] nor any other
    operation runs, and the collaborators are left as the lookup left
    them. *)
Theorem user_create_duplicate_email_no_write
  (payload : UserPayload) (u : User) (w w1 : W) :
  h _ (UserGetByEmail (up_Email payload)) w = (Ok (Some u), w1) ->
  let r := run h (UserService.Create payload) w in
  returned r = Done (Some ErrEmailAlreadyRegister)
  /\ calls r = [Ev (UserGetByEmail (up_Email payload)) (Ok (Some u))]
  /\ filter isUserCreate (calls r) = []
  /\ final r = w1.
Proof.
  intros Hget. unfold UserService.Create, calls, returned, final; simpl.
  rewrite Hget; simpl. auto.
Qed.

(** C7.  A user found whose password check fails: [ErrInvalidPassword] and
    no call to the session service.  No user found: [ErrUserNotFound] and no
    call to the session service.  And a token is returned only after a user
    was found, the password check passed and the session service created the
    session that carries this token. *)
Theorem sign_in_failures_create_no_session :
  (forall (payload : SignInPayload) (u : User) (err : error) (w w1 w2 : W),
      h _ (UserGetByEmail (sp_Email payload)) w = (Ok (Some u), w1) ->
      h _ (CheckPassword (user_PasswordHash u) (sp_Password payload)) w1
        = (Some err, w2) ->
      let r := run h (UserService.SignIn payload) w in
      returned r = Done (Err ErrInvalidPassword)
      /\ filter isSessionCreate (calls r) = [])
  /\
  (forall (payload : SignInPayload) (w w1 : W),
      h _ (UserGetByEmail (sp_Email payload)) w = (Ok None, w1) ->
      let r := run h (UserService.SignIn payload) w in
      returned r = Done (Err ErrUserNotFound)
      /\ filter isSessionCreate (calls r) = [])
  /\
  (forall (payload : SignInPayload) (w : W) (response : SignInResponse),
      let r := run h (UserService.SignIn payload) w in
      returned r = Done (Ok response) ->
      exists u,
        calls r =
          [Ev (UserGetByEmail (sp_Email payload)) (Ok (Some u));
           Ev (CheckPassword (user_PasswordHash u) (sp_Password payload))
             None;
           Ev (SessionCreate u) (Ok (Token response))]).
Proof.
  repeat split.
  - unfold UserService.SignIn, returned; simpl. rewrite H; simpl.
    rewrite H0; simpl. reflexivity.
  - unfold UserService.SignIn, calls; simpl. rewrite H; simpl.
    rewrite H0; simpl. reflexivity.
  - unfold UserService.SignIn, returned; simpl. rewrite H; simpl.
    reflexivity.
  - unfold UserService.SignIn, calls; simpl. rewrite H; simpl.
    reflexivity.
  - intros payload w response.
    unfold UserService.SignIn, calls, returned; simpl.
    step h. destruct x as [[u | ] | err]; simpl; try discriminate.
    step h. destruct x as [err | ]; simpl; try discriminate.
    step h. destruct x as [token | err]; simpl; try discriminate.
    intros Hret. injection Hret as <-. exists u. reflexivity.
Qed.

(** C9.  Under a context that carries no session (no value, a value of
    another type, or a nil session) [Create], [GetAllByUserID], [Update] and
    [Delete] return [ErrUserNotFoundInContext] without making any call: the
    state of the collaborators is unchanged. *)
Theorem no_session_no_effect
  (ctx : Context) (payload : MoviePayload) (pagination : Pagination)
  (id : UUID) (update : MovieUpdatePayload) (w : W) :
  sessionOf ctx = None ->
  run h (MovieService.Create ctx payload) w
    = (Done (Err ErrUserNotFoundInContext), w, [])
  /\ run h (MovieService.GetAllByUserID ctx pagination) w
     = (Done (Err ErrUserNotFoundInContext), w, [])
  /\ run h (MovieService.Update ctx id update) w
     = (Done (Err ErrUserNotFoundInContext), w, [])
  /\ run h (MovieService.Delete ctx id) w
     = (Done (Some ErrUserNotFoundInContext), w, []).
Proof.
  unfold sessionOf. intros Hnone.
  destruct ctx as [ | | [s | ]]; simpl in Hnone; try discriminate;
    repeat split; reflexivity.
Qed.

(** C10.  When the owner updates a movie, every movie handed to the
    repository's [Update] has the identifier, owner, creation time, images,
    rating identifier, user and update time of the movie read; its title and
    duration are those of the payload where the payload gives one and the
    prior ones otherwise; its indicative rating is the prior one when the
    payload gives no rating identifier and the rating looked up otherwise.
    At most one movie is handed over, exactly one when the payload gives no
    rating identifier, and the response is built from it. *)
Theorem update_changes_only_requested_fields
  (s : Session) (id : UUID) (payload : MovieUpdatePayload)
  (movie : Movie) (w w1 : W) :
  h _ (GetByID id true) w = (Ok (Some movie), w1) ->
  UserID movie = session_UserID s ->
  let r := run h (MovieService.Update (CtxSession (Some s)) id payload) w in
  (forall m, In m (updatedMovies (calls r)) ->
     ID m = ID movie
     /\ UserID m = UserID movie
     /\ CreatedAt m = CreatedAt movie
     /\ Images m = Images movie
     /\ IndicativeRatingID m = IndicativeRatingID movie
     /\ MovieUser m = MovieUser movie
     /\ UpdatedAt m = UpdatedAt movie
     /\ Title m = match mu_Title payload with
                  | Some title => title
                  | None => Title movie
                  end
     /\ Duration m = match mu_Duration payload with
                     | Some duration => duration
                     | None => Duration movie
                     end
     /\ match mu_IndicativeRatingID payload with
        | Some ratingID =>
            fetchedRatings (calls r) = [(ratingID, MovieIndicativeRating m)]
        | None => MovieIndicativeRating m = MovieIndicativeRating movie
        end)
  /\ (List.length (updatedMovies (calls r)) <= 1)%nat
  /\ (mu_IndicativeRatingID payload = None ->
      List.length (updatedMovies (calls r)) = 1%nat)
  /\ (forall response, returned r = Done (Ok response) ->
      exists m, updatedMovies (calls r) = [m]
                /\ response = ToMovieResponse m).
Proof.
  intros Hget Hown.
  assert (Heq : uuid_eqb (UserID movie) (session_UserID s) = true)
    by (apply N.eqb_eq; exact Hown).
  unfold MovieService.Update, calls, returned; simpl.
  rewrite Hget; simpl. rewrite Heq; simpl.
  unfold MovieService.applyAndStore.
  destruct payload as [title duration ratingID]; simpl.
  destruct ratingID as [ratingID | ]; simpl.
  - step h. destruct x as [[rating | ] | err]; simpl.
    + step h. destruct x as [err | ]; simpl;
        (split; [ | split; [lia | split; [discriminate | ]]]);
        try (intros response Hr; try discriminate; injection Hr as <-; eauto);
        intros m [<- | []];
        destruct title, duration; simpl; repeat split; reflexivity.
    + split; [intros m [] | split; [lia | split; discriminate]].
    + split; [intros m [] | split; [lia | split; discriminate]].
  - step h. destruct x as [err | ]; simpl;
      (split; [ | split; [lia | split; [reflexivity | ]]]);
      try (intros response Hr; try discriminate; injection Hr as <-; eauto);
      intros m [<- | []];
      destruct title, duration; simpl; repeat split; reflexivity.
Qed.

Section UploadLoop.
Variables movieID userID : UUID.

Lemma enqueueUploadTasks_run (images : list FileHeader) (w : W) :
  exists w' outs,
    List.length outs = List.length images
    /\ run h (MovieService.enqueueUploadTasks movieID userID images) w
       = (Done tt, w',
          flat_map (imageCalls movieID userID) (combine images outs)).
Proof.
  revert w. induction images as [ | image rest IH]; intro w; simpl.
  - exists w, []. auto.
  - destruct (h _ (ConvertImageToBytes image) w) as [[content | err] w1];
      simpl.
    + destruct (h _ (AddUploadTaskToQueue
                       (MovieService.uploadTask movieID userID content))
                  w1) as [[err | ] w2];
        destruct (IH w2) as (w' & outs & Hlen & ->).
      * exists w', (PushFailed content err :: outs). simpl. auto.
      * exists w', (Enqueued content :: outs). simpl. auto.
    + destruct (IH w1) as (w' & outs & Hlen & ->).
      exists w', (ConversionFailed err :: outs). simpl. auto.
Qed.

Lemma convertedImages_imageCalls (images : list FileHeader) :
  forall outs, List.length outs = List.length images ->
    convertedImages
      (flat_map (imageCalls movieID userID) (combine images outs))
    = images.
Proof.
  induction images as [ | image rest IH]; intros [ | o outs] Hlen;
    simpl in *; try discriminate; auto.
  destruct o; simpl; f_equal; apply IH; lia.
Qed.

Lemma producedTasks_imageCalls (images : list FileHeader) :
  forall outs, List.length outs = List.length images ->
    producedTasks
      (flat_map (imageCalls movieID userID) (combine images outs))
    = flat_map (enqueuedTask movieID userID) outs.
Proof.
  induction images as [ | image rest IH]; intros [ | o outs] Hlen;
    simpl in *; try discriminate; auto.
  destruct o; simpl; f_equal; apply IH; lia.
Qed.

Lemma createdMovies_imageCalls (ios : list (FileHeader * ImageOutcome)) :
  createdMovies (flat_map (imageCalls movieID userID) ios) = [].
Proof.
  induction ios as [ | [image o] rest IH]; simpl; auto.
  destruct o; simpl; auto.
Qed.

Lemma enqueuedTask_length (outs : list ImageOutcome) :
  (List.length (flat_map (enqueuedTask movieID userID) outs)
   <= List.length outs)%nat.
Proof.
  induction outs as [ | o outs IH]; simpl; auto.
  destruct o; simpl; lia.
Qed.
End UploadLoop.

(** C2.  [Create] produces at most as many upload tasks as the payload has
    images.  Once the movie row is written the request succeeds whatever
    happens to the images: every image is handed to the conversion, in order;
    an image whose conversion fails gets no push, an image whose conversion
    succeeds gets one push of the task built from its bytes; and the tasks
    produced are exactly those of the images whose conversion and push both
    succeeded. *)
Theorem create_enqueues_one_task_per_converted_image
  (ctx : Context) (payload : MoviePayload) (w : W) :
  let r := run h (MovieService.Create ctx payload) w in
  (List.length (producedTasks (calls r))
   <= List.length (mp_Images payload))%nat
  /\ (forall movie, In movie (createdMovies (calls r)) ->
      exists prefix outs response,
        returned r = Done (Ok response)
        /\ mr_ID response = ID movie
        /\ List.length outs = List.length (mp_Images payload)
        /\ calls r =
             prefix ++ flat_map (imageCalls (ID movie) (UserID movie))
                         (combine (mp_Images payload) outs)
        /\ convertedImages prefix = []
        /\ pushedTasks prefix = []
        /\ convertedImages (calls r) = mp_Images payload
        /\ producedTasks (calls r)
             = flat_map (enqueuedTask (ID movie) (UserID movie)) outs).
Proof.
  unfold MovieService.Create, calls, returned.
  destruct ctx as [ | | [s | ]]; simpl;
    try (split; [lia | intros movie []]).
  step h. destruct x as [[rating | ] | err]; simpl;
    try (split; [lia | intros movie []]).
  step h. step h. step h. destruct x1 as [err | ]; simpl;
    try (split; [lia | intros movie []]).
  rewrite run_bind.
  destruct (enqueueUploadTasks_run x (session_UserID s)
              (mp_Images payload) w3) as (w' & outs & Hlen & ->); simpl.
  rewrite app_nil_r, createdMovies_imageCalls, producedTasks_imageCalls,
    convertedImages_imageCalls by exact Hlen.
  split.
  - rewrite <- Hlen. apply enqueuedTask_length.
  - intros movie [<- | []].
    eexists [_; _; _; _], outs, _.
    cbn [app ID UserID].
    split; [reflexivity | ].
    split; [reflexivity | ].
    split; [exact Hlen | ].
    split; [reflexivity | ].
    repeat split.
Qed.
End Generic.

(** ** Against the in-memory collaborators *)

(** One task processed in a world whose database and remote store answer. *)
Lemma process_upload_mem (w : World) (task : MovieImageUploadTask) :
  w_dbDown w = false -> w_remoteDown w = false ->
  let reply :=
    remoteReply (w_remoteSeq w)
      (MovieService.uploadFilename task (w_clock w)) in
  let row := MovieService.imageRow (w_uuid w) task reply in
  run mem (MovieService.ProcessUploadQueue task) w =
  (Done None,
   setImages
     (setUuid
        (setRemoteSeq (setRemote w (w_remote w ++ [(reply, ut_Image task)]))
           (w_remoteSeq w + 1)%N)
        (w_uuid w + 1)%N)
     (w_images w ++ [row]),
   [Ev TimeNow (w_clock w);
    Ev (UploadImage (ut_Image task)
          (MovieService.uploadFilename task (w_clock w))) (Ok reply);
    Ev UuidNew (w_uuid w);
    Ev (CreateMovieImage row) None]).
Proof.
  intros Hdb Hremote.
  unfold MovieService.ProcessUploadQueue.
  cbn -[MovieService.uploadFilename remoteReply].
  rewrite Hremote.
  cbn -[MovieService.uploadFilename remoteReply].
  rewrite Hdb.
  reflexivity.
Qed.

(** With fuel for every task the worker empties a healthy world's queue and
    appends one row per task, built from the reply to its upload. *)
Lemma worker_drains_queue (queue : list MovieImageUploadTask) :
  forall (fuel : nat) (w : World),
    healthy w -> w_uploadQueue w = queue ->
    (List.length queue <= fuel)%nat ->
    exists w' tr rows,
      run mem (UploadWorker fuel) w = (Done None, w', tr)
      /\ w_uploadQueue w' = []
      /\ w_images w' = w_images w ++ rows
      /\ map mi_MovieID rows = map ut_MovieID queue
      /\ map mi_ImageURL rows = map ur_URL (uploadReplies tr)
      /\ map mi_CloudFlareID rows = map ur_ID (uploadReplies tr).
Proof.
  induction queue as [ | task rest IH]; intros fuel w (Hdb & Hcache & Hremote)
    Hqueue Hfuel.
  - exists w, (match fuel with O => [] | S _ => [Ev GetNextUploadTaskFromQueue (Ok None)] end), [].
    destruct fuel; simpl.
    + rewrite app_nil_r. repeat split; auto.
    + rewrite Hcache, Hqueue. simpl. rewrite app_nil_r. repeat split; auto.
  - destruct fuel as [ | fuel]; simpl in Hfuel; [lia | ].
    cbn [UploadWorker bind call run mem].
    rewrite Hcache, Hqueue.
    set (w1 := setUploadQueue w rest).
    rewrite run_bind, (process_upload_mem w1 task Hdb Hremote).
    cbv zeta.
    match goal with
    | |- context [run mem (UploadWorker fuel) ?w2] =>
        destruct (IH fuel w2) as (w' & tr & rows & -> & Hq & Himg & Hid & Hurl & Hcf);
          [repeat split; assumption | reflexivity | lia | ]
    end.
    eexists w', _, (_ :: rows). split; [reflexivity | ].
    split; [exact Hq | ].
    split; [rewrite Himg; cbn [w_images setImages]; rewrite <- app_assoc; reflexivity | ].
    cbn [map app uploadReplies mi_MovieID mi_ImageURL mi_CloudFlareID MovieService.imageRow].
    rewrite Hid, Hurl, Hcf. auto.
Qed.

Lemma create_two_images_mem
  (w : World) (s : Session) (payload : MoviePayload)
  (image1 image2 : FileHeader) (content1 content2 : list Byte.byte)
  (rating : IndicativeRating) :
  healthy w ->
  mp_Images payload = [image1; image2] ->
  w_files w image1 = Some content1 ->
  w_files w image2 = Some content2 ->
  find (fun r => uuid_eqb (ir_ID r) (mp_IndicativeRatingID payload))
    (w_ratings w) = Some rating ->
  w_uploadQueue w = [] ->
  exists response w1 tr,
    run mem (MovieService.Create (CtxSession (Some s)) payload) w
      = (Done (Ok response), w1, tr)
    /\ mr_ID response = w_uuid w
    /\ w_uploadQueue w1 =
         [MovieService.uploadTask (w_uuid w) (session_UserID s) content1;
          MovieService.uploadTask (w_uuid w) (session_UserID s) content2]
    /\ w_images w1 = w_images w
    /\ healthy w1.
Proof.
  intros (Hdb & Hcache & Hremote) Himages Hfile1 Hfile2 Hrating Hqueue.
  destruct w as [ratings movies images users uploadQueue deleteQueue remote
                   remoteSeq sessions clock uuid files dbDown cacheDown
                   remoteDown].
  destruct payload as [pimages ratingID title duration].
  unfold healthy. simpl in *. subst.
  unfold MovieService.Create.
  cbn. rewrite Hrating.
  cbn. rewrite Hfile1.
  cbn. rewrite Hfile2.
  cbn. do 3 eexists. split; [reflexivity | ]. cbn. repeat split.
Qed.

(** C3.  In a healthy in-memory world with an empty upload queue, a session,
    a known rating and a payload of two readable images: [Create] succeeds,
    and once the worker has had fuel for both tasks the queue is empty, the
    remote store has answered two uploads, and the movie has exactly two
    image rows, the first with the URL and identifier of the first reply, the
    second with those of the second. *)
Theorem two_images_end_to_end
  (w : World) (s : Session) (payload : MoviePayload)
  (image1 image2 : FileHeader) (content1 content2 : list Byte.byte)
  (rating : IndicativeRating) (fuel : nat) :
  healthy w ->
  mp_Images payload = [image1; image2] ->
  w_files w image1 = Some content1 ->
  w_files w image2 = Some content2 ->
  find (fun r => uuid_eqb (ir_ID r) (mp_IndicativeRatingID payload))
    (w_ratings w) = Some rating ->
  w_uploadQueue w = [] ->
  imagesOf (w_uuid w) (w_images w) = [] ->
  (2 <= fuel)%nat ->
  let r1 := run mem (MovieService.Create (CtxSession (Some s)) payload) w in
  let r2 := run mem (UploadWorker fuel) (final r1) in
  exists response reply1 reply2 row1 row2,
    returned r1 = Done (Ok response)
    /\ returned r2 = Done None
    /\ w_uploadQueue (final r2) = []
    /\ uploadReplies (calls r2) = [reply1; reply2]
    /\ imagesOf (mr_ID response) (w_images (final r2)) = [row1; row2]
    /\ mi_ImageURL row1 = ur_URL reply1
    /\ mi_ImageURL row2 = ur_URL reply2
    /\ mi_CloudFlareID row1 = ur_ID reply1
    /\ mi_CloudFlareID row2 = ur_ID reply2.
Proof.
  intros Hhealthy Himages Hfile1 Hfile2 Hrating Hqueue Hfresh Hfuel.
  destruct (create_two_images_mem w s payload image1 image2 content1 content2
              rating Hhealthy Himages Hfile1 Hfile2 Hrating Hqueue)
    as (response & w1 & tr1 & Hrun1 & Hid & Hq1 & Himg1 & Hhealthy1).
  destruct (worker_drains_queue _ fuel w1 Hhealthy1 Hq1 Hfuel)
    as (w2 & tr2 & rows & Hrun2 & Hq2 & Himg2 & Hmovie & Hurl & Hcf).
  cbv zeta. rewrite Hrun1. unfold final, returned, calls.
  cbn [fst snd]. rewrite Hrun2. cbn [fst snd].
  destruct rows as [ | row1 [ | row2 [ | row3 rows]]]; try discriminate.
  destruct (uploadReplies tr2) as [ | reply1 [ | reply2 [ | reply3 replies]]];
    try discriminate.
  cbn [map MovieService.uploadTask ut_MovieID] in Hmovie, Hurl, Hcf.
  injection Hmovie as Hm1 Hm2. injection Hurl as Hu1 Hu2.
  injection Hcf as Hc1 Hc2.
  exists response, reply1, reply2, row1, row2.
  split; [reflexivity | ].
  split; [reflexivity | ].
  split; [exact Hq2 | ].
  split; [reflexivity | ].
  split; [ | auto].
  rewrite Hid, Himg2, Himg1. unfold imagesOf in *.
  rewrite filter_app, Hfresh. cbn [filter app].
  unfold uuid_eqb. rewrite Hm1, Hm2, N.eqb_refl. reflexivity.
Qed.

(** ** The properties at the sample data *)

(** C1 as first stated fails: with the database out of reach the upload
    succeeds and the remote store answers, yet no row is persisted and the
    table of images is as before. *)
Lemma upload_succeeds_row_missing :
  let r := run mem (MovieService.ProcessUploadQueue Sample.task)
             Sample.worldDbDown in
  uploadReplies (calls r) <> []
  /\ persistedRows (calls r) = []
  /\ w_images (final r) = w_images Sample.worldDbDown
  /\ ~ (persistedRows (calls r) <> [] <-> uploadReplies (calls r) <> []).
Proof.
  cbv zeta.
  assert (Hup : uploadReplies
                  (calls (run mem (MovieService.ProcessUploadQueue Sample.task)
                            Sample.worldDbDown)) <> [])
    by (vm_compute; discriminate).
  assert (Hrows : persistedRows
                    (calls (run mem
                              (MovieService.ProcessUploadQueue Sample.task)
                              Sample.worldDbDown)) = [])
    by (vm_compute; reflexivity).
  split; [exact Hup | ].
  split; [exact Hrows | ].
  split; [vm_compute; reflexivity | ].
  intros [_ Hback]. apply (Hback Hup). exact Hrows.
Qed.

Lemma upload_consumer_witness :
  let r := run mem (MovieService.ProcessUploadQueue Sample.task)
             Sample.world in
  returned r = Done None /\ uploadReplies (calls r) <> [].
Proof.
  cbv zeta.
  pose proof (upload_consumer_persists_only_after_upload World mem
                Sample.task Sample.world) as H.
  cbv zeta in H. destruct H as (_ & _ & Himp & _ & Hiff).
  assert (Hrows : persistedRows
                    (calls (run mem
                              (MovieService.ProcessUploadQueue Sample.task)
                              Sample.world)) <> [])
    by (vm_compute; discriminate).
  split; [apply Hiff; exact Hrows | apply Himp; exact Hrows].
Defined.

Lemma create_enqueue_witness :
  let r := run mem
             (MovieService.Create (CtxSession (Some Sample.aliceSession))
                Sample.payloadBrokenImage) Sample.world in
  In Sample.newMovie (createdMovies (calls r))
  /\ convertedImages (calls r) = [Sample.poster; Sample.broken; Sample.still]
  /\ exists outs,
       List.length outs = 3%nat
       /\ producedTasks (calls r)
          = flat_map (enqueuedTask 100%N 5%N) outs.
Proof.
  cbv zeta.
  assert (Hin : In Sample.newMovie
                  (createdMovies
                     (calls (run mem
                               (MovieService.Create
                                  (CtxSession (Some Sample.aliceSession))
                                  Sample.payloadBrokenImage) Sample.world))))
    by (vm_compute; left; reflexivity).
  split; [exact Hin | ].
  destruct (proj2 (create_enqueues_one_task_per_converted_image World mem
                     (CtxSession (Some Sample.aliceSession))
                     Sample.payloadBrokenImage Sample.world)
              Sample.newMovie Hin)
    as (prefix & outs & response & _ & _ & Hlen & _ & _ & _ & Hconv & Hprod).
  split; [exact Hconv | ].
  exists outs. split; [exact Hlen | exact Hprod].
Defined.

Lemma two_images_witness :
  let r1 := run mem
              (MovieService.Create (CtxSession (Some Sample.aliceSession))
                 Sample.payload) Sample.world in
  let r2 := run mem (UploadWorker 2) (final r1) in
  exists response reply1 reply2 row1 row2,
    returned r1 = Done (Ok response)
    /\ returned r2 = Done None
    /\ w_uploadQueue (final r2) = []
    /\ uploadReplies (calls r2) = [reply1; reply2]
    /\ imagesOf (mr_ID response) (w_images (final r2)) = [row1; row2]
    /\ mi_ImageURL row1 = ur_URL reply1
    /\ mi_ImageURL row2 = ur_URL reply2
    /\ mi_CloudFlareID row1 = ur_ID reply1
    /\ mi_CloudFlareID row2 = ur_ID reply2.
Proof.
  apply (two_images_end_to_end Sample.world Sample.aliceSession
           Sample.payload Sample.poster Sample.still
           [Byte.x01; Byte.x02; Byte.x03] [Byte.x04; Byte.x05]
           Sample.rating 2).
  - repeat split.
  - reflexivity.
  - reflexivity.
  - reflexivity.
  - reflexivity.
  - reflexivity.
  - reflexivity.
  - lia.
Defined.

Lemma create_unknown_rating_witness :
  let r := run mem
             (MovieService.Create (CtxSession (Some Sample.aliceSession))
                Sample.payloadUnknownRating) Sample.world in
  returned r = Done (Err ErrIndicativeRatingNotFound)
  /\ createdMovies (calls r) = []
  /\ final r = Sample.world.
Proof.
  cbv zeta.
  destruct (create_unknown_rating_writes_no_movie World mem
              (CtxSession (Some Sample.aliceSession))
              Sample.payloadUnknownRating Sample.world Sample.world
              eq_refl)
    as (e & Hret & _ & Hnone & Hsession).
  destruct (Hsession Sample.aliceSession eq_refl) as (He & _ & Hfinal).
  rewrite He in Hret. auto.
Defined.

Lemma delete_foreign_movie_witness :
  (let r := run mem
              (MovieService.Delete (CtxSession (Some Sample.bobSession)) 40%N)
              Sample.world in
   returned r = Done (Some ErrMovieNotBelongUser)
   /\ filter isAddDeleteTask (calls r) = [])
  /\
  (let r := run mem
              (MovieService.Delete (CtxSession (Some Sample.aliceSession))
                 40%N) Sample.world in
   exists s movie,
     sessionOf (CtxSession (Some Sample.aliceSession)) = Some s
     /\ fetchedMovies (calls r) = [movie]
     /\ UserID movie = session_UserID s).
Proof.
  cbv zeta. split.
  - destruct (proj1 (delete_foreign_movie_enqueues_nothing World mem)
                Sample.bobSession 40%N Sample.oldMovieLoaded
                Sample.world Sample.world eq_refl)
      as (Hret & _ & Hnone & _).
    + simpl. discriminate.
    + split; assumption.
  - apply (proj2 (delete_foreign_movie_enqueues_nothing World mem)
             (CtxSession (Some Sample.aliceSession)) 40%N Sample.world).
    vm_compute. discriminate.
Defined.

Lemma user_create_duplicate_email_witness :
  let r := run mem (UserService.Create Sample.aliceAgain) Sample.world in
  returned r = Done (Some ErrEmailAlreadyRegister)
  /\ filter isUserCreate (calls r) = []
  /\ final r = Sample.world.
Proof.
  cbv zeta.
  destruct (user_create_duplicate_email_no_write World mem Sample.aliceAgain
              Sample.alice Sample.world Sample.world eq_refl)
    as (Hret & _ & Hnone & Hfinal).
  auto.
Defined.

Lemma sign_in_witness :
  (let r := run mem (UserService.SignIn Sample.wrongPassword) Sample.world in
   returned r = Done (Err ErrInvalidPassword)
   /\ filter isSessionCreate (calls r) = [])
  /\
  (let r := run mem (UserService.SignIn Sample.unknownEmail) Sample.world in
   returned r = Done (Err ErrUserNotFound)
   /\ filter isSessionCreate (calls r) = [])
  /\
  (let r := run mem (UserService.SignIn Sample.rightPassword) Sample.world in
   exists u,
     calls r =
       [Ev (UserGetByEmail "alice@example.com") (Ok (Some u));
        Ev (CheckPassword (user_PasswordHash u) "Str0ngP@ssw0rd!") None;
        Ev (SessionCreate u) (Ok "token-0")]).
Proof.
  cbv zeta.
  destruct (sign_in_failures_create_no_session World mem)
    as (Hwrong & Hunknown & Hright).
  split; [ | split].
  - apply (Hwrong Sample.wrongPassword Sample.alice passwordError
             Sample.world Sample.world Sample.world); reflexivity.
  - apply (Hunknown Sample.unknownEmail Sample.world Sample.world).
    reflexivity.
  - apply (Hright Sample.rightPassword Sample.world {| Token := "token-0" |}).
    vm_compute. reflexivity.
Defined.

Lemma no_session_witness :
  run mem (MovieService.Create CtxAbsent Sample.payload) Sample.world
    = (Done (Err ErrUserNotFoundInContext), Sample.world, [])
  /\ run mem (MovieService.Delete (CtxSession None) 40%N) Sample.world
     = (Done (Some ErrUserNotFoundInContext), Sample.world, []).
Proof.
  split.
  - apply (no_session_no_effect World mem CtxAbsent Sample.payload
             {| pg_Limit := 10; pg_Page := 1; pg_Sort := "";
                pg_TotalRows := 0; pg_TotalPages := 0; pg_Rows := RowsNil |}
             40%N Sample.retitle Sample.world).
    reflexivity.
  - apply (no_session_no_effect World mem (CtxSession None) Sample.payload
             {| pg_Limit := 10; pg_Page := 1; pg_Sort := "";
                pg_TotalRows := 0; pg_TotalPages := 0; pg_Rows := RowsNil |}
             40%N Sample.retitle Sample.world).
    reflexivity.
Defined.

Lemma update_retitle_witness :
  let r := run mem
             (MovieService.Update (CtxSession (Some Sample.aliceSession))
                40%N Sample.retitle) Sample.world in
  List.length (updatedMovies (calls r)) = 1%nat
  /\ forall m, In m (updatedMovies (calls r)) ->
       Title m = "New title"
       /\ Duration m = 100%Z
       /\ ID m = 40%N
       /\ UserID m = 5%N
       /\ Images m = [Sample.oldImage]
       /\ MovieIndicativeRating m = zeroIndicativeRating.
Proof.
  cbv zeta.
  destruct (update_changes_only_requested_fields World mem
              Sample.aliceSession 40%N Sample.retitle Sample.oldMovieLoaded
              Sample.world Sample.world eq_refl eq_refl)
    as (Hframe & _ & Hone & _).
  split; [apply Hone; reflexivity | ].
  intros m Hin.
  destruct (Hframe m Hin)
    as (Hid & Huser & _ & Himages & _ & _ & _ & Htitle & Hduration & Hrating).
  repeat split; assumption.
Defined.

(** * Further properties *)

(** ** The movie service, against any implementation of the collaborators *)

Section MovieServiceMore.
Variable W : Type.
Variable h : handler W.

Lemma fetchedRatings_imageCalls (movieID userID : UUID)
  (ios : list (FileHeader * ImageOutcome)) :
  fetchedRatings (flat_map (imageCalls movieID userID) ios) = [].
Proof.
  induction ios as [ | [image o] rest IH]; simpl; auto.
  destruct o; simpl; auto.
Qed.

Lemma pushedTasks_imageCalls (movieID userID : UUID)
  (ios : list (FileHeader * ImageOutcome)) (task : MovieImageUploadTask) :
  In task (pushedTasks (flat_map (imageCalls movieID userID) ios)) ->
  ut_MovieID task = movieID /\ ut_UserID task = userID.
Proof.
  induction ios as [ | [image o] rest IH]; simpl; [intros [] | ].
  destruct o; simpl; auto.
  - intros [<- | Hin]; auto.
  - intros [<- | Hin]; auto.
Qed.

(** X1.  The movie [Create] writes is the payload's under the user of the
    session, without images; the response repeats it with the rating found
    and an empty list of images; every task pushed names this movie and this
    user. *)
Theorem create_writes_payload_under_session_user
  (ctx : Context) (payload : MoviePayload) (w : W) (movie : Movie) :
  let r := run h (MovieService.Create ctx payload) w in
  In movie (createdMovies (calls r)) ->
  exists s rating,
    sessionOf ctx = Some s
    /\ fetchedRatings (calls r) = [(mp_IndicativeRatingID payload, rating)]
    /\ UserID movie = session_UserID s
    /\ IndicativeRatingID movie = mp_IndicativeRatingID payload
    /\ Title movie = mp_Title payload
    /\ Duration movie = mp_Duration payload
    /\ Images movie = []
    /\ returned r =
         Done (Ok {| mr_ID := ID movie;
                     mr_Title := mp_Title payload;
                     mr_Duration := mp_Duration payload;
                     mr_IndicativeRating :=
                       Some (ToIndicativeRatingResponse rating);
                     mr_MovieImages := [] |})
    /\ (forall task, In task (pushedTasks (calls r)) ->
          ut_MovieID task = ID movie /\ ut_UserID task = session_UserID s).
Proof.
  unfold MovieService.Create, calls, returned, sessionOf.
  destruct ctx as [ | | [s | ]]; simpl; try (intros []).
  step h. destruct x as [[rating | ] | err]; simpl; try (intros []).
  step h. step h. step h. destruct x1 as [err | ]; simpl; try (intros []).
  rewrite run_bind.
  destruct (enqueueUploadTasks_run W h x (session_UserID s)
              (mp_Images payload) w3) as (w' & outs & Hlen & ->).
  simpl.
  rewrite app_nil_r, createdMovies_imageCalls, fetchedRatings_imageCalls.
  intros [<- | []]. exists s, rating. cbn [ID UserID IndicativeRatingID Title Duration Images].
  repeat split; try reflexivity;
    apply (pushedTasks_imageCalls _ _ _ _ H).
Qed.

(** X2.  When [Create] writes no movie row the request fails, no image is
    converted and no task is pushed; the error is the missing session, the
    unknown rating, or the error of the rating lookup or of the write under
    [fmt.Errorf]. *)
Theorem create_without_movie_row_touches_no_image
  (ctx : Context) (payload : MoviePayload) (w : W) :
  let r := run h (MovieService.Create ctx payload) w in
  createdMovies (calls r) = [] ->
  convertedImages (calls r) = []
  /\ pushedTasks (calls r) = []
  /\ exists e,
       returned r = Done (Err e)
       /\ (e = ErrUserNotFoundInContext
           \/ e = ErrIndicativeRatingNotFound
           \/ (exists err,
                 e = Errorf "error to get indicative rating by id %w" err)
           \/ (exists err, e = Errorf "error to create movie %w" err)).
Proof.
  unfold MovieService.Create, calls, returned.
  destruct ctx as [ | | [s | ]]; simpl;
    try (intros _; do 2 (split; [reflexivity | ]); eexists;
         split; [reflexivity | eauto 6]).
  step h. destruct x as [[rating | ] | err]; simpl;
    try (intros _; do 2 (split; [reflexivity | ]); eexists;
         split; [reflexivity | eauto 6]).
  step h. step h. step h. destruct x1 as [err | ]; simpl.
  - intros _; do 2 (split; [reflexivity | ]); eexists;
      split; [reflexivity | eauto 6].
  - rewrite run_bind.
    destruct (enqueueUploadTasks_run W h x (session_UserID s)
                (mp_Images payload) w3) as (w' & outs & Hlen & ->).
    simpl. discriminate.
Qed.

(** X3.  [Delete] by the owner pushes one delete task per image of the
    movie, in order, each with the identifier of its image in the remote
    store, and makes no other call after the read; it returns no error
    whatever the pushes reply. *)
Theorem delete_by_owner_pushes_one_task_per_image
  (s : Session) (id : UUID) (movie : Movie) (w w1 : W) :
  h _ (GetByID id true) w = (Ok (Some movie), w1) ->
  UserID movie = session_UserID s ->
  let r := run h (MovieService.Delete (CtxSession (Some s)) id) w in
  returned r = Done None
  /\ exists replies,
       List.length replies = List.length (Images movie)
       /\ calls r =
            Ev (GetByID id true) (Ok (Some movie))
            :: deleteCalls (combine (Images movie) replies).
Proof.
  intros Hget Hown.
  assert (Heq : uuid_eqb (UserID movie) (session_UserID s) = true)
    by (apply N.eqb_eq; exact Hown).
  unfold MovieService.Delete, calls, returned; simpl.
  rewrite Hget; simpl. rewrite Heq; simpl.
  rewrite run_bind.
  destruct (enqueueDeleteTasks_run W h (Images movie) w1)
    as (w' & replies & Hlen & ->).
  simpl. split; [reflexivity | ].
  exists replies. rewrite app_nil_r. auto.
Qed.

(** X4.  A movie the repository does not find: [Update] and [Delete] return
    [ErrMoviesNotFound] after the read alone.  A read that fails: both return
    its error under [fmt.Errorf], again after the read alone. *)
Theorem update_delete_lookup_failures
  (s : Session) (id : UUID) (payload : MovieUpdatePayload) (w w1 : W) :
  (h _ (GetByID id true) w = (Ok None, w1) ->
   run h (MovieService.Update (CtxSession (Some s)) id payload) w
     = (Done (Err ErrMoviesNotFound), w1, [Ev (GetByID id true) (Ok None)])
   /\ run h (MovieService.Delete (CtxSession (Some s)) id) w
      = (Done (Some ErrMoviesNotFound), w1, [Ev (GetByID id true) (Ok None)]))
  /\
  (forall err,
     h _ (GetByID id true) w = (Err err, w1) ->
     run h (MovieService.Update (CtxSession (Some s)) id payload) w
       = (Done (Err (Errorf "error to get movie by id: %w" err)), w1,
          [Ev (GetByID id true) (Err err)])
     /\ run h (MovieService.Delete (CtxSession (Some s)) id) w
        = (Done (Some (Errorf "error to get movies by id error:%w" err)), w1,
           [Ev (GetByID id true) (Err err)])).
Proof.
  split.
  - intros Hget. unfold MovieService.Update, MovieService.Delete; simpl.
    rewrite Hget. auto.
  - intros err Hget. unfold MovieService.Update, MovieService.Delete; simpl.
    rewrite Hget. auto.
Qed.

(** X5.  [Update] of a movie of another user returns
    [ErrMovieNotBelongUser] after the read alone: no rating is looked up and
    nothing is handed to the repository's [Update].  And whenever a movie is
    handed to the repository's [Update], the context carries a session whose
    user owns the movie read. *)
Theorem update_foreign_movie_writes_nothing :
  (forall (s : Session) (id : UUID) (payload : MovieUpdatePayload)
          (movie : Movie) (w w1 : W),
      h _ (GetByID id true) w = (Ok (Some movie), w1) ->
      UserID movie <> session_UserID s ->
      run h (MovieService.Update (CtxSession (Some s)) id payload) w
        = (Done (Err ErrMovieNotBelongUser), w1,
           [Ev (GetByID id true) (Ok (Some movie))]))
  /\
  (forall (ctx : Context) (id : UUID) (payload : MovieUpdatePayload) (w : W),
      let r := run h (MovieService.Update ctx id payload) w in
      updatedMovies (calls r) <> [] ->
      exists s movie,
        sessionOf ctx = Some s
        /\ fetchedMovies (calls r) = [movie]
        /\ UserID movie = session_UserID s).
Proof.
  split.
  - intros s id payload movie w w1 Hget Hneq.
    unfold MovieService.Update; simpl. rewrite Hget; simpl.
    apply N.eqb_neq in Hneq. unfold uuid_eqb. rewrite Hneq. reflexivity.
  - intros ctx id payload w.
    unfold MovieService.Update, MovieService.applyAndStore, calls, sessionOf.
    destruct ctx as [ | | [s | ]]; simpl; try congruence.
    step h. destruct x as [[movie | ] | err]; simpl; try congruence.
    destruct (uuid_eqb (UserID movie) (session_UserID s)) eqn:Hown;
      simpl; try congruence.
    apply N.eqb_eq in Hown.
    destruct (mu_IndicativeRatingID payload) as [ratingID | ]; simpl.
    + step h. destruct x as [[rating | ] | err]; simpl; try congruence.
      step h. destruct x as [err | ]; simpl; intros _; eauto.
    + step h. destruct x as [err | ]; simpl; intros _; eauto.
Qed.


Lemma rowsToResponses_all (movies : list Movie) :
  MovieService.rowsToResponses (map Some movies)
  = Some (map ToMovieResponse movies).
Proof.
  induction movies as [ | movie rest IH]; simpl; auto.
  rewrite IH. reflexivity.
Qed.

Lemma rowsToResponses_nil_row (rows : list (option Movie)) :
  MovieService.rowsToResponses rows = None <-> In None rows.
Proof.
  induction rows as [ | [movie | ] rest IH]; simpl.
  - split; [discriminate | intros []].
  - destruct (MovieService.rowsToResponses rest).
    + split; [discriminate | ].
      intros [Hm | Hin]; [discriminate | ]. apply IH in Hin. discriminate.
    + split; auto. intros _. right. apply IH. reflexivity.
  - split; auto.
Qed.

(** X7.  [GetAllByUserID] asks the repository for the movies of the user of
    the session.  When the page comes back with movies, it is returned with
    its counters untouched and its rows replaced by their conversions: one
    response per movie, in the same order, each with as many images as its
    movie. *)
Theorem list_movies_converts_each_row
  (s : Session) (pagination page : Pagination) (movies : list Movie)
  (w w1 : W) :
  h _ (GetALlByUserID (session_UserID s) pagination) w
    = (Ok (Some page), w1) ->
  pg_Rows page = RowsMovies (map Some movies) ->
  let r := run h (MovieService.GetAllByUserID (CtxSession (Some s))
                    pagination) w in
  exists responses,
    returned r = Done (Ok (withRows page (RowsResponses responses)))
    /\ calls r = [Ev (GetALlByUserID (session_UserID s) pagination)
                    (Ok (Some page))]
    /\ map mr_ID responses = map ID movies
    /\ map mr_Title responses = map Title movies
    /\ map (fun x => List.length (mr_MovieImages x)) responses
       = map (fun m => List.length (Images m)) movies.
Proof.
  intros Hget Hrows.
  unfold MovieService.GetAllByUserID, calls, returned; simpl.
  rewrite Hget; simpl. rewrite Hrows, rowsToResponses_all; simpl.
  exists (map ToMovieResponse movies).
  repeat split; rewrite map_map; apply map_ext; intros m; simpl; auto.
  destruct (Images m); simpl; auto. rewrite length_map. reflexivity.
Qed.

(** X8.  The edges of [GetAllByUserID].  No page: [ErrMoviesNotFoundByUserID].
    A failed read: its error under [fmt.Errorf].  A page whose rows are not a
    slice of movies, or hold a nil movie: the method panics. *)
Theorem list_movies_edges
  (s : Session) (pagination : Pagination) (w w1 : W) :
  let r := run h (MovieService.GetAllByUserID (CtxSession (Some s))
                    pagination) w in
  (h _ (GetALlByUserID (session_UserID s) pagination) w = (Ok None, w1) ->
   returned r = Done (Err ErrMoviesNotFoundByUserID))
  /\ (forall err,
        h _ (GetALlByUserID (session_UserID s) pagination) w
          = (Err err, w1) ->
        returned r =
          Done (Err (Errorf "error to get all movies by user id. error: %w"
                       err)))
  /\ (forall page,
        h _ (GetALlByUserID (session_UserID s) pagination) w
          = (Ok (Some page), w1) ->
        (forall rows, pg_Rows page <> RowsMovies rows) ->
        returned r = Panicked "interface conversion")
  /\ (forall page rows,
        h _ (GetALlByUserID (session_UserID s) pagination) w
          = (Ok (Some page), w1) ->
        pg_Rows page = RowsMovies rows ->
        In None rows ->
        returned r = Panicked "nil pointer dereference").
Proof.
  unfold MovieService.GetAllByUserID, returned; simpl.
  repeat split.
  - intros Hget. rewrite Hget. reflexivity.
  - intros err Hget. rewrite Hget. reflexivity.
  - intros page Hget Hrows. rewrite Hget; simpl.
    destruct (pg_Rows page) as [ | rows | rs | ]; try reflexivity.
    exfalso. apply (Hrows rows). reflexivity.
  - intros page rows Hget Hrows Hin. rewrite Hget; simpl. rewrite Hrows.
    apply rowsToResponses_nil_row in Hin. rewrite Hin. reflexivity.
Qed.

(** X14.  The identifier the remote store gave to an upload comes back to it
    on deletion: the row [ProcessUploadQueue] persists carries it, the task
    [Delete] builds from that row carries it, and [ProcessDeleteQueue] on
    that task asks the remote store, first, to delete exactly it. *)
Theorem upload_identifier_returns_on_delete
  (task : MovieImageUploadTask) (w w' : W) (row : MovieImage) :
  let up := run h (MovieService.ProcessUploadQueue task) w in
  let down := run h (MovieService.ProcessDeleteQueue
                       (MovieService.deleteTask row)) w' in
  In row (persistedRows (calls up)) ->
  exists reply,
    uploadReplies (calls up) = [reply]
    /\ mi_ImageURL row = ur_URL reply
    /\ mi_MovieID row = ut_MovieID task
    /\ remoteDeletes (calls down) = [ur_ID reply]
    /\ exists e rest,
         calls down = Ev (DeleteImage (ur_ID reply)) e :: rest.
Proof.
  unfold MovieService.ProcessUploadQueue, MovieService.ProcessDeleteQueue,
    calls; simpl.
  step h. step h. destruct x0 as [reply | err]; simpl; [ | intros []].
  step h. step h. destruct x1 as [err | ]; simpl; [intros [] | ].
  intros [<- | []]. simpl.
  exists reply.
  step h. destruct x1 as [err | ]; simpl.
  - repeat split; try reflexivity. do 2 eexists. reflexivity.
  - step h. destruct x1; simpl;
      repeat split; try reflexivity; do 2 eexists; reflexivity.
Qed.
End MovieServiceMore.

(** ** The list of indicative ratings *)

Lemma ratingsToResponses_all (ratings : list IndicativeRating) :
  ratingsToResponses (map Some ratings)
  = Some (map ToIndicativeRatingResponse ratings).
Proof.
  induction ratings as [ | rating rest IH]; simpl; auto.
  rewrite IH. reflexivity.
Qed.

(** X9.  [GetAllIndicativeRatings] makes the one read.  A list of ratings,
    empty or not, gives one response per rating, in order, with its
    identifier, description and image; a nil list gives
    [ErrIndicativeRatingsNotFound]; a failed read gives its error under
    [fmt.Errorf].  The state is the one the read left. *)
Theorem rating_list_converts_each_rating
  (W : Type)
  (repository : W -> result (option (list (option IndicativeRating))) * W)
  (w w1 : W) :
  (forall ratings,
     repository w = (Ok (Some (map Some ratings)), w1) ->
     GetAllIndicativeRatings repository w
       = (Done (inl (map ToIndicativeRatingResponse ratings)), w1)
     /\ map irr_ID (map ToIndicativeRatingResponse ratings)
        = map ir_ID ratings
     /\ map irr_Description (map ToIndicativeRatingResponse ratings)
        = map ir_Description ratings
     /\ map irr_ImageURL (map ToIndicativeRatingResponse ratings)
        = map ir_ImageURL ratings)
  /\ (repository w = (Ok None, w1) ->
      GetAllIndicativeRatings repository w
        = (Done (inr ErrIndicativeRatingsNotFound), w1))
  /\ (forall err,
        repository w = (Err err, w1) ->
        GetAllIndicativeRatings repository w
          = (Done (inr (RatingsErrorf "error to get all indicative ratings %w"
                          err)), w1)).
Proof.
  unfold GetAllIndicativeRatings. repeat split.
  - rewrite H, ratingsToResponses_all. reflexivity.
  - rewrite map_map. reflexivity.
  - rewrite map_map. reflexivity.
  - rewrite map_map. reflexivity.
  - intros Hget. rewrite Hget. reflexivity.
  - intros err Hget. rewrite Hget. reflexivity.
Qed.

(** ** The user service, against any implementation of the collaborators *)

Section UserServiceMore.
Variable W : Type.
Variable h : handler W.

(** X10.  [Create] of the user service hands at most one user to the
    repository, and only after the lookup found nobody and the password was
    hashed: the user is the one built from the payload and that hash.  It
    returns no error exactly when this write returned none. *)
Theorem user_create_writes_hashed_user_once
  (payload : UserPayload) (w : W) :
  let r := run h (UserService.Create payload) w in
  (List.length (userCreateAttempts (calls r)) <= 1)%nat
  /\ (forall user, In user (userCreateAttempts (calls r)) ->
        exists hash reply,
          calls r =
            [Ev (UserGetByEmail (up_Email payload)) (Ok None);
             Ev (HashPassword (up_Password payload)) (Ok hash);
             Ev (ToUser payload hash) user;
             Ev (UserCreate user) reply])
  /\ (returned r = Done None <-> createdUsers (calls r) <> []).
Proof.
  unfold UserService.Create, calls, returned; simpl.
  step h. destruct x as [[u | ] | err]; simpl;
    try (split; [lia | split; [intros user [] | split; congruence]]).
  step h. destruct x as [hash | err]; simpl;
    try (split; [lia | split; [intros user [] | split; congruence]]).
  step h. step h.
  destruct x0 as [err | ]; simpl;
    (split; [lia | split; [ | split; congruence]]);
    intros user [<- | []]; eauto.
Qed.

(** X11.  The user service never hands an error of a collaborator to its
    caller: whatever the collaborators reply, an error returned by [Create]
    or [SignIn] is one of the sentinels of package [domain]. *)
Theorem user_service_returns_domain_errors
  (create : UserPayload) (signIn : SignInPayload) (w : W) :
  (forall e, returned (run h (UserService.Create create) w) = Done (Some e) ->
             userServiceError e = true)
  /\ (forall e, returned (run h (UserService.SignIn signIn) w) = Done (Err e) ->
                userServiceError e = true)
  /\ (forall msg, returned (run h (UserService.Create create) w)
                  <> Panicked msg)
  /\ (forall msg, returned (run h (UserService.SignIn signIn) w)
                  <> Panicked msg).
Proof.
  unfold UserService.Create, UserService.SignIn, returned; simpl.
  repeat split.
  - step h. destruct x as [[u | ] | err]; simpl;
      try (intros e He; injection He as <-; reflexivity).
    step h. destruct x as [hash | err]; simpl;
      try (intros e He; injection He as <-; reflexivity).
    step h. step h. destruct x0 as [err | ]; simpl;
      intros e He; try discriminate; injection He as <-; reflexivity.
  - step h. destruct x as [[u | ] | err]; simpl;
      try (intros e He; injection He as <-; reflexivity).
    step h. destruct x as [err | ]; simpl;
      try (intros e He; injection He as <-; reflexivity).
    step h. destruct x as [token | err]; simpl;
      intros e He; try discriminate; injection He as <-; reflexivity.
  - step h. destruct x as [[u | ] | err]; simpl; try discriminate.
    step h. destruct x as [hash | err]; simpl; try discriminate.
    step h. step h. destruct x0 as [err | ]; simpl; discriminate.
  - step h. destruct x as [[u | ] | err]; simpl; try discriminate.
    step h. destruct x as [err | ]; simpl; try discriminate.
    step h. destruct x as [token | err]; simpl; discriminate.
Qed.

(** X12.  [SignIn] asks the session service for a session at most once, for
    the user the lookup found, and only after the check of the password
    against that user's hash passed; a session service that fails gives
    [ErrCreateSession].  [SignIn] never writes a user. *)
Theorem sign_in_creates_session_after_password_check
  (payload : SignInPayload) (w : W) :
  let r := run h (UserService.SignIn payload) w in
  userCreateAttempts (calls r) = []
  /\ (filter isSessionCreate (calls r) <> [] ->
      exists u reply,
        calls r =
          [Ev (UserGetByEmail (sp_Email payload)) (Ok (Some u));
           Ev (CheckPassword (user_PasswordHash u) (sp_Password payload))
             None;
           Ev (SessionCreate u) reply]
        /\ returned r =
             Done (match reply with
                   | Ok token => Ok {| Token := token |}
                   | Err _ => Err ErrCreateSession
                   end)).
Proof.
  unfold UserService.SignIn, calls, returned; simpl.
  step h. destruct x as [[u | ] | err]; simpl; try (split; congruence).
  step h. destruct x as [err | ]; simpl; try (split; congruence).
  step h. split; [destruct x; reflexivity | ].
  intros _. exists u, x. destruct x; auto.
Qed.
End UserServiceMore.

(** ** The user service over the user repository of [repository/user.go] *)

Section OverUserRepository.
Variable W : Type.
Variable dbCreate : User -> W -> option error * W.
Variable dbFirstByEmail : string -> W -> result User * W.
Variable isRecordNotFound : error -> bool.
Variable base : handler W.

(** X13.  With this repository behind the user service, a read that ends in
    record-not-found means no such user: [SignIn] returns [ErrUserNotFound]
    and [Create] goes on to hash the password; any other error of the read
    makes both return [ErrGetUserByEmail] at once; and a row found makes
    [Create] return [ErrEmailAlreadyRegister] without a write. *)
Theorem record_not_found_is_no_user
  (create : UserPayload) (signIn : SignInPayload) (w w1 : W) :
  (forall err,
     dbFirstByEmail (sp_Email signIn) w = (Err err, w1) ->
     run (UserRepository.serve dbCreate dbFirstByEmail isRecordNotFound base)
       (UserService.SignIn signIn) w
     = if isRecordNotFound err
       then (Done (Err ErrUserNotFound), w1,
             [Ev (UserGetByEmail (sp_Email signIn)) (Ok None)])
       else (Done (Err ErrGetUserByEmail), w1,
             [Ev (UserGetByEmail (sp_Email signIn)) (Err err)]))
  /\ (forall err,
        dbFirstByEmail (up_Email create) w = (Err err, w1) ->
        let r := run (UserRepository.serve dbCreate dbFirstByEmail
                        isRecordNotFound base)
                   (UserService.Create create) w in
        if isRecordNotFound err
        then exists reply rest,
               calls r =
                 Ev (UserGetByEmail (up_Email create)) (Ok None)
                 :: Ev (HashPassword (up_Password create)) reply :: rest
        else r = (Done (Some ErrGetUserByEmail), w1,
                  [Ev (UserGetByEmail (up_Email create)) (Err err)]))
  /\ (forall user,
        dbFirstByEmail (up_Email create) w = (Ok user, w1) ->
        run (UserRepository.serve dbCreate dbFirstByEmail isRecordNotFound base)
          (UserService.Create create) w
        = (Done (Some ErrEmailAlreadyRegister), w1,
           [Ev (UserGetByEmail (up_Email create)) (Ok (Some user))])).
Proof.
  unfold UserService.SignIn, UserService.Create, calls.
  repeat split.
  - intros err Hdb. simpl. unfold UserRepository.GetByEmail. rewrite Hdb.
    destruct (isRecordNotFound err); reflexivity.
  - intros err Hdb. simpl. unfold UserRepository.GetByEmail. rewrite Hdb.
    destruct (isRecordNotFound err); [ | reflexivity].
    simpl. step base. destruct x as [hash | e]; simpl.
    + step base. unfold UserRepository.Create.
      destruct (dbCreate x w2) as [[e | ] w3]; simpl;
        do 2 eexists; reflexivity.
    + do 2 eexists; reflexivity.
  - intros user Hdb. simpl. unfold UserRepository.GetByEmail. rewrite Hdb.
    reflexivity.
Qed.
End OverUserRepository.

(** ** The further properties at the sample data *)

Lemma create_writes_payload_witness :
  let r := run mem
             (MovieService.Create (CtxSession (Some Sample.aliceSession))
                Sample.payloadBrokenImage) Sample.world in
  exists s rating,
    sessionOf (CtxSession (Some Sample.aliceSession)) = Some s
    /\ UserID Sample.newMovie = session_UserID s
    /\ returned r =
         Done (Ok {| mr_ID := 100%N;
                     mr_Title := "Central do Brasil";
                     mr_Duration := 113%Z;
                     mr_IndicativeRating :=
                       Some (ToIndicativeRatingResponse rating);
                     mr_MovieImages := [] |}).
Proof.
  cbv zeta.
  destruct (create_writes_payload_under_session_user World mem
              (CtxSession (Some Sample.aliceSession))
              Sample.payloadBrokenImage Sample.world Sample.newMovie)
    as (s & rating & Hs & _ & Huser & _ & _ & _ & _ & Hret & _).
  - vm_compute. left. reflexivity.
  - exists s, rating. auto.
Defined.

Lemma create_without_movie_row_witness :
  let r := run mem
             (MovieService.Create (CtxSession (Some Sample.aliceSession))
                Sample.payloadUnknownRating) Sample.world in
  convertedImages (calls r) = [] /\ pushedTasks (calls r) = [].
Proof.
  cbv zeta.
  destruct (create_without_movie_row_touches_no_image World mem
              (CtxSession (Some Sample.aliceSession))
              Sample.payloadUnknownRating Sample.world eq_refl)
    as (Hconv & Hpush & _).
  auto.
Defined.

Lemma delete_by_owner_witness :
  let r := run mem
             (MovieService.Delete (CtxSession (Some Sample.aliceSession))
                40%N) Sample.world in
  returned r = Done None
  /\ exists replies,
       List.length replies = 1%nat
       /\ calls r =
            Ev (GetByID 40%N true) (Ok (Some Sample.oldMovieLoaded))
            :: deleteCalls (combine [Sample.oldImage] replies).
Proof.
  apply (delete_by_owner_pushes_one_task_per_image World mem
           Sample.aliceSession 40%N Sample.oldMovieLoaded
           Sample.world Sample.world); reflexivity.
Defined.

Lemma update_delete_lookup_witness :
  run mem (MovieService.Delete (CtxSession (Some Sample.aliceSession)) 77%N)
    Sample.world
  = (Done (Some ErrMoviesNotFound), Sample.world,
     [Ev (GetByID 77%N true) (Ok None)])
  /\ run mem
       (MovieService.Update (CtxSession (Some Sample.aliceSession)) 40%N
          Sample.retitle) Sample.worldDbDown
     = (Done (Err (Errorf "error to get movie by id: %w" dbError)),
        Sample.worldDbDown, [Ev (GetByID 40%N true) (Err dbError)]).
Proof.
  split.
  - apply (proj1 (update_delete_lookup_failures World mem
                    Sample.aliceSession 77%N Sample.retitle
                    Sample.world Sample.world)).
    reflexivity.
  - apply (proj2 (update_delete_lookup_failures World mem
                    Sample.aliceSession 40%N Sample.retitle
                    Sample.worldDbDown Sample.worldDbDown) dbError).
    reflexivity.
Defined.

Lemma update_foreign_movie_witness :
  run mem
    (MovieService.Update (CtxSession (Some Sample.bobSession)) 40%N
       Sample.retitle) Sample.world
  = (Done (Err ErrMovieNotBelongUser), Sample.world,
     [Ev (GetByID 40%N true) (Ok (Some Sample.oldMovieLoaded))])
  /\ (let r := run mem
                 (MovieService.Update
                    (CtxSession (Some Sample.aliceSession)) 40%N
                    Sample.retitle) Sample.world in
      exists s movie,
        sessionOf (CtxSession (Some Sample.aliceSession)) = Some s
        /\ fetchedMovies (calls r) = [movie]
        /\ UserID movie = session_UserID s).
Proof.
  cbv zeta. split.
  - apply (proj1 (update_foreign_movie_writes_nothing World mem)
             Sample.bobSession 40%N Sample.retitle Sample.oldMovieLoaded
             Sample.world Sample.world).
    + reflexivity.
    + simpl. discriminate.
  - apply (proj2 (update_foreign_movie_writes_nothing World mem)
             (CtxSession (Some Sample.aliceSession)) 40%N Sample.retitle
             Sample.world).
    vm_compute. discriminate.
Defined.


Lemma list_movies_witness :
  let r := run mem
             (MovieService.GetAllByUserID
                (CtxSession (Some Sample.aliceSession)) SampleDb.page)
             Sample.world in
  exists responses,
    returned r
      = Done (Ok (withRows SampleDb.alicePage (RowsResponses responses)))
    /\ map mr_ID responses = [40%N]
    /\ map (fun x => List.length (mr_MovieImages x)) responses = [1%nat].
Proof.
  cbv zeta.
  destruct (list_movies_converts_each_row World mem Sample.aliceSession
              SampleDb.page SampleDb.alicePage [Sample.oldMovieLoaded]
              Sample.world Sample.world eq_refl eq_refl)
    as (responses & Hret & _ & Hid & _ & Himages).
  exists responses. auto.
Defined.

Lemma list_movies_edges_witness :
  returned (run SampleDb.oddCollaborators
              (MovieService.GetAllByUserID
                 (CtxSession (Some {| session_UserID := 1%N |}))
                 SampleDb.page) Sample.world)
  = Done (Err ErrMoviesNotFoundByUserID)
  /\ returned (run mem
                 (MovieService.GetAllByUserID
                    (CtxSession (Some Sample.aliceSession)) SampleDb.page)
                 Sample.worldDbDown)
     = Done (Err (Errorf "error to get all movies by user id. error: %w"
                    dbError))
  /\ returned (run SampleDb.oddCollaborators
                 (MovieService.GetAllByUserID
                    (CtxSession (Some {| session_UserID := 2%N |}))
                    SampleDb.page) Sample.world)
     = Panicked "interface conversion"
  /\ returned (run SampleDb.oddCollaborators
                 (MovieService.GetAllByUserID
                    (CtxSession (Some {| session_UserID := 3%N |}))
                    SampleDb.page) Sample.world)
     = Panicked "nil pointer dereference".
Proof.
  split; [ | split; [ | split]].
  - apply (proj1 (list_movies_edges World SampleDb.oddCollaborators
                    {| session_UserID := 1%N |} SampleDb.page
                    Sample.world Sample.world)).
    reflexivity.
  - apply (proj1 (proj2 (list_movies_edges World mem Sample.aliceSession
                           SampleDb.page Sample.worldDbDown
                           Sample.worldDbDown)) dbError).
    reflexivity.
  - apply (proj1 (proj2 (proj2 (list_movies_edges World
                                  SampleDb.oddCollaborators
                                  {| session_UserID := 2%N |} SampleDb.page
                                  Sample.world Sample.world)))
             (withRows SampleDb.page RowsOther)).
    + reflexivity.
    + intros rows. simpl. discriminate.
  - apply (proj2 (proj2 (proj2 (list_movies_edges World
                                  SampleDb.oddCollaborators
                                  {| session_UserID := 3%N |} SampleDb.page
                                  Sample.world Sample.world)))
             (withRows SampleDb.page
                (RowsMovies [Some Sample.oldMovieLoaded; None]))
             [Some Sample.oldMovieLoaded; None]).
    + reflexivity.
    + reflexivity.
    + simpl. auto.
Defined.

Lemma rating_list_witness :
  GetAllIndicativeRatings SampleDb.allRatings Sample.world
  = (Done (inl (map ToIndicativeRatingResponse
                  [Sample.rating; Sample.rating12])), Sample.world)
  /\ GetAllIndicativeRatings (fun w : World => (Ok None, w)) Sample.world
     = (Done (inr ErrIndicativeRatingsNotFound), Sample.world)
  /\ GetAllIndicativeRatings SampleDb.allRatings Sample.worldDbDown
     = (Done (inr (RatingsErrorf "error to get all indicative ratings %w"
                     dbError)), Sample.worldDbDown).
Proof.
  split; [ | split].
  - apply (proj1 (rating_list_converts_each_rating World SampleDb.allRatings
                    Sample.world Sample.world)
             [Sample.rating; Sample.rating12]).
    reflexivity.
  - apply (proj1 (proj2 (rating_list_converts_each_rating World
                           (fun w : World => (Ok None, w))
                           Sample.world Sample.world))).
    reflexivity.
  - apply (proj2 (proj2 (rating_list_converts_each_rating World
                           SampleDb.allRatings
                           Sample.worldDbDown Sample.worldDbDown)) dbError).
    reflexivity.
Defined.

Lemma user_create_witness :
  let r := run mem (UserService.Create SampleDb.carol) Sample.world in
  returned r = Done None
  /\ exists hash reply,
       calls r =
         [Ev (UserGetByEmail "carol@example.com") (Ok None);
          Ev (HashPassword "S3cret#Pass") (Ok hash);
          Ev (ToUser SampleDb.carol hash) SampleDb.carolUser;
          Ev (UserCreate SampleDb.carolUser) reply].
Proof.
  cbv zeta.
  destruct (user_create_writes_hashed_user_once World mem SampleDb.carol
              Sample.world) as (_ & Hshape & Hiff).
  split.
  - apply Hiff. vm_compute. discriminate.
  - apply (Hshape SampleDb.carolUser). vm_compute. left. reflexivity.
Defined.

Lemma user_service_errors_witness :
  (exists e,
     returned (run mem (UserService.Create Sample.aliceAgain) Sample.world)
       = Done (Some e)
     /\ userServiceError e = true)
  /\ (exists e,
        returned (run mem (UserService.SignIn Sample.wrongPassword)
                    Sample.worldDbDown) = Done (Err e)
        /\ userServiceError e = true).
Proof.
  split.
  - exists ErrEmailAlreadyRegister. split; [reflexivity | ].
    apply (proj1 (user_service_returns_domain_errors World mem
                    Sample.aliceAgain Sample.wrongPassword Sample.world)).
    reflexivity.
  - exists ErrGetUserByEmail. split; [reflexivity | ].
    apply (proj1 (proj2 (user_service_returns_domain_errors World mem
                           Sample.aliceAgain Sample.wrongPassword
                           Sample.worldDbDown))).
    reflexivity.
Defined.

Lemma sign_in_session_witness :
  let r := run mem (UserService.SignIn Sample.rightPassword) Sample.world in
  exists u reply,
    calls r =
      [Ev (UserGetByEmail "alice@example.com") (Ok (Some u));
       Ev (CheckPassword (user_PasswordHash u) "Str0ngP@ssw0rd!") None;
       Ev (SessionCreate u) reply]
    /\ returned r =
         Done (match reply with
               | Ok token => Ok {| Token := token |}
               | Err _ => Err ErrCreateSession
               end).
Proof.
  cbv zeta.
  apply (proj2 (sign_in_creates_session_after_password_check World mem
                  Sample.rightPassword Sample.world)).
  vm_compute. discriminate.
Defined.

Lemma record_not_found_witness :
  run SampleDb.collaborators (UserService.SignIn Sample.unknownEmail)
    Sample.world
  = (Done (Err ErrUserNotFound), Sample.world,
     [Ev (UserGetByEmail "carol@example.com") (Ok None)])
  /\ run SampleDb.collaborators (UserService.SignIn Sample.unknownEmail)
       Sample.worldDbDown
     = (Done (Err ErrGetUserByEmail), Sample.worldDbDown,
        [Ev (UserGetByEmail "carol@example.com") (Err SampleDb.refused)])
  /\ run SampleDb.collaborators (UserService.Create Sample.aliceAgain)
       Sample.world
     = (Done (Some ErrEmailAlreadyRegister), Sample.world,
        [Ev (UserGetByEmail "alice@example.com") (Ok (Some Sample.alice))]).
Proof.
  split; [ | split].
  - apply (proj1 (record_not_found_is_no_user World SampleDb.dbCreate
                    SampleDb.dbFirstByEmail SampleDb.isRecordNotFound mem
                    Sample.aliceAgain Sample.unknownEmail
                    Sample.world Sample.world) SampleDb.notFound).
    reflexivity.
  - apply (proj1 (record_not_found_is_no_user World SampleDb.dbCreate
                    SampleDb.dbFirstByEmail SampleDb.isRecordNotFound mem
                    Sample.aliceAgain Sample.unknownEmail
                    Sample.worldDbDown Sample.worldDbDown) SampleDb.refused).
    reflexivity.
  - apply (proj2 (proj2 (record_not_found_is_no_user World SampleDb.dbCreate
                           SampleDb.dbFirstByEmail SampleDb.isRecordNotFound
                           mem Sample.aliceAgain Sample.unknownEmail
                           Sample.world Sample.world)) Sample.alice).
    reflexivity.
Defined.

Lemma upload_identifier_witness :
  let up := run mem (MovieService.ProcessUploadQueue Sample.task)
              Sample.world in
  let down := run mem (MovieService.ProcessDeleteQueue
                         (MovieService.deleteTask SampleDb.uploadedRow))
                (final up) in
  exists reply,
    uploadReplies (calls up) = [reply]
    /\ remoteDeletes (calls down) = [ur_ID reply]
    /\ returned down = Done None.
Proof.
  cbv zeta.
  destruct (upload_identifier_returns_on_delete World mem Sample.task
              Sample.world
              (final (run mem (MovieService.ProcessUploadQueue Sample.task)
                        Sample.world))
              SampleDb.uploadedRow)
    as (reply & Hup & _ & _ & Hdown & _).
  - vm_compute. left. reflexivity.
  - exists reply. split; [exact Hup | ]. split; [exact Hdown | ].
    vm_compute. reflexivity.
Defined.
